(** * Email Templates core (core.js): template engine and store

    A shallow embedding of the rendering engine ([render], [missingFields],
    [formatDate]) and of the localStorage-backed store (folders and
    templates) of core.js, followed by the properties of the specification
    checked against it.

    Conventions of the embedding.
    - A JavaScript string is a [string]; each character stands for one code
      unit in the range 0..255.
    - JavaScript values that reach the engine are the primitives and the
      built-in objects found on [Object.prototype]; see [value].
    - An object used as a dictionary is the finite map of its own properties
      ([gmap string value]); property lookup ([in], [o[k]]) falls back to
      [Object_prototype], as it does for every object literal and every
      result of [JSON.parse].
    - The ambient [Date] and [Intl.DateTimeFormat] are an interface
      ([DateEnv]); the clock and the id generator are oracles of the store
      monad. *)

From Stdlib Require Import ZArith Ascii String DecimalString Sorted.
From stdpp Require Import gmap strings list.

#[local] Set Warnings "-clear-no-such-hyp".
Local Open Scope Z_scope.

(* ===================================================================== *)
(** * Part I: definitions                                                 *)
(* ===================================================================== *)

(** ** JavaScript values *)

Inductive value : Type :=
  | JUndefined
  | JNull
  | JBool (b : bool)
  | JNum (n : Z)            (* an integer-valued number *)
  | JStr (s : string)
  | JNative (repr : string) (* a built-in object; [repr] is its String() *).

Global Instance value_eq_dec : EqDecision value.
Proof. solve_decision. Defined.

(** ToBoolean: [!v] is [negb (truthy v)]. *)
Definition truthy (v : value) : bool :=
  match v with
  | JUndefined | JNull => false
  | JBool b => b
  | JNum n => negb (n =? 0)
  | JStr s => negb (String.eqb s "")
  | JNative _ => true
  end.

(** Number::toString on integers (decimal, leading minus sign). This is the
    conversion for the integers a number holds exactly and prints in full,
    those below 2^53 in magnitude; larger ones are outside the model. *)
Definition Z_to_string (n : Z) : string :=
  NilZero.string_of_int (Z.to_int n).

(** [String(v)], also the conversion applied by [String.prototype.replace]
    to what its callback returns. *)
Definition to_string (v : value) : string :=
  match v with
  | JUndefined => "undefined"
  | JNull => "null"
  | JBool true => "true"
  | JBool false => "false"
  | JNum n => Z_to_string n
  | JStr s => s
  | JNative r => r
  end.

(** ** Objects used as dictionaries *)

Definition native_function (name : string) : value :=
  JNative ("function " +:+ name +:+ "() { [native code] }").

(** The properties every ordinary object inherits. *)
Definition Object_prototype : gmap string value :=
  list_to_map
    [ ("constructor", native_function "Object");
      ("hasOwnProperty", native_function "hasOwnProperty");
      ("isPrototypeOf", native_function "isPrototypeOf");
      ("propertyIsEnumerable", native_function "propertyIsEnumerable");
      ("toLocaleString", native_function "toLocaleString");
      ("toString", native_function "toString");
      ("valueOf", native_function "valueOf");
      ("__defineGetter__", native_function "__defineGetter__");
      ("__defineSetter__", native_function "__defineSetter__");
      ("__lookupGetter__", native_function "__lookupGetter__");
      ("__lookupSetter__", native_function "__lookupSetter__");
      ("__proto__", JNative "[object Object]") ].

(** [key in o] *)
Definition has_property (o : gmap string value) (key : string) : bool :=
  bool_decide (is_Some (o !! key)) || bool_decide (is_Some (Object_prototype !! key)).

(** [o[key]] *)
Definition get_property (o : gmap string value) (key : string) : value :=
  match o !! key with
  | Some v => v
  | None => default JUndefined (Object_prototype !! key)
  end.

(** ** Characters and strings *)

Definition code (c : ascii) : N := N_of_ascii c.

(** [\s], and the characters removed by [trim]: TAB, LF, VT, FF, CR, SPACE
    and NBSP. *)
Definition is_space (c : ascii) : bool :=
  ((9 <=? code c) && (code c <=? 13) || (code c =? 32) || (code c =? 160))%N.

Definition is_digit (c : ascii) : bool :=
  ((48 <=? code c) && (code c <=? 57))%N.

(** [[a-z]] under the [i] flag. *)
Definition is_alpha (c : ascii) : bool :=
  ((97 <=? code c) && (code c <=? 122) || (65 <=? code c) && (code c <=? 90))%N.

(** [[a-z0-9_]] under the [i] flag. *)
Definition is_word (c : ascii) : bool :=
  is_alpha c || is_digit c || (code c =? 95)%N.

(** The longest prefix of characters satisfying [p], and what follows it:
    a greedy [p*]. *)
Fixpoint span (p : ascii -> bool) (s : string) : string * string :=
  match s with
  | EmptyString => (EmptyString, EmptyString)
  | String c s' =>
      if p c then let '(a, b) := span p s' in (String c a, b)
      else (EmptyString, s)
  end.

Definition skip_spaces (s : string) : string := snd (span is_space s).

(** [s.trim()] *)
Definition trim (s : string) : string :=
  String.rev (skip_spaces (String.rev (skip_spaces s))).

(** [s.startsWith(p)] *)
Definition startsWith (s p : string) : bool := String.prefix p s.

Definition all_chars (p : ascii -> bool) (s : string) : bool :=
  forallb p (list_ascii_of_string s).

(** ** The placeholder pattern

    [/{{\s*([a-z0-9_]+)(?:\|([a-z]+))?\s*}}/gi], matched at the start of [s]:
    the key, the filter when the optional group took part, and the text
    after the match. Each starred class is taken greedily; what may follow
    a class lies outside it, so a shorter run never leads to a match
    (see [re_exec_complete]). *)

Definition close_braces (s : string) : option string :=
  match s with
  | String "}" (String "}" rest) => Some rest
  | _ => None
  end.

(** [(?:\|([a-z]+))] followed by [\s*}}]. *)
Definition re_filter (s : string) : option (string * string) :=
  match s with
  | String "|" s' =>
      let '(flt, s'') := span is_alpha s' in
      if String.eqb flt "" then None
      else option_map (pair flt) (close_braces (skip_spaces s''))
  | _ => None
  end.

Definition re_exec (s : string) : option (string * option string * string) :=
  match s with
  | String "{" (String "{" s1) =>
      let '(key, s2) := span is_word (skip_spaces s1) in
      if String.eqb key "" then None
      else match re_filter s2 with
           | Some (flt, rest) => Some (key, Some flt, rest)
           | None => option_map (pair (key, None)) (close_braces (skip_spaces s2))
           end
  | _ => None
  end.

(** A template cut by the global, left-to-right, non-overlapping scan of
    the pattern: the matches and the characters between them. *)
Inductive piece : Type :=
  | Text (c : ascii)
  | Token (key : string) (filter : option string).

Fixpoint tokenize_fuel (fuel : nat) (s : string) : list piece :=
  match fuel, s with
  | S fuel', String c s' =>
      match re_exec s with
      | Some (key, filter, rest) => Token key filter :: tokenize_fuel fuel' rest
      | None => Text c :: tokenize_fuel fuel' s'
      end
  | _, _ => []
  end.

Definition tokenize (s : string) : list piece :=
  tokenize_fuel (String.length s) s.

(** [s.replace(re, f)] with a callback [f (key, filter)]. *)
Definition piece_out (f : string -> option string -> string) (p : piece) : string :=
  match p with
  | Text c => String c EmptyString
  | Token key filter => f key filter
  end.

Definition concat_strings (l : list string) : string :=
  foldr String.append EmptyString l.

Definition replace_tokens (f : string -> option string -> string) (s : string) : string :=
  concat_strings (piece_out f <$> tokenize s).

(** The successive [m[1]] of the [re.exec] loop. *)
Definition token_keys (s : string) : list string :=
  omap (fun p => match p with Token key _ => Some key | Text _ => None end)
       (tokenize s).

(** ** Dates: the ambient [Date] and [Intl.DateTimeFormat] *)

Inductive dtf_field : Type := Numeric | TwoDigit | Long | Short.

Record dtf_options : Type :=
  { year : dtf_field; month : dtf_field; day : dtf_field }.

Class DateEnv : Type :=
  { date : Type;
    (** [new Date(s)] for a string [s]; [None] when the time value is NaN.
        A date-time without offset ("2024-03-05T12:00:00") is local time. *)
    Date_parse : string -> option date;
    (** [new Date(n)] for a number [n]. *)
    Date_of_time : Z -> option date;
    (** [new Intl.DateTimeFormat(undefined, opts).format(d)] *)
    Intl_format : dtf_options -> date -> string }.

(** [/^\d{4}-\d{2}-\d{2}$/.test(s)] *)
Fixpoint match_classes (cs : list (ascii -> bool)) (s : string) : bool :=
  match cs, s with
  | [], EmptyString => true
  | p :: cs', String c s' => p c && match_classes cs' s'
  | _, _ => false
  end.

Definition is_dash (c : ascii) : bool := (code c =? 45)%N.

Definition ymd_pattern : list (ascii -> bool) :=
  [is_digit; is_digit; is_digit; is_digit; is_dash;
   is_digit; is_digit; is_dash; is_digit; is_digit].

Section Engine.
Context `{DateEnv}.

(** [new Date(v)] *)
Definition Date_new (v : value) : option date :=
  match v with
  | JStr s | JNative s => Date_parse s
  | JNum n => Date_of_time n
  | JBool b => Date_of_time (if b then 1 else 0)
  | JNull => Date_of_time 0
  | JUndefined => None
  end.

(** The [Date] that [formatDate] builds from its input. *)
Definition date_of_input (input : value) : option date :=
  let hasDash := match_classes ymd_pattern (to_string input) in
  if hasDash then Date_parse (to_string input +:+ "T12:00:00")
  else Date_new input.

Definition formatDate (input : value) (style : string) : value :=
  if negb (truthy input) then JStr ""
  else
    match date_of_input input with
    | None => input
    | Some d =>
        let long := Intl_format {| year := Numeric; month := Long; day := Numeric |} in
        let short := Intl_format {| year := TwoDigit; month := Short; day := Numeric |} in
        JStr (if String.eqb style "short" then short d else long d)
    end.

(** The callback of [render]: what replaces one matched token. *)
Definition render_token (data : option (gmap string value))
    (key : string) (filter : option string) : string :=
  let raw := match data with
             | Some o => if has_property o key then get_property o key else JStr ""
             | None => JStr ""
             end in
  if negb (truthy raw) then ""
  else if startsWith key "date_" then
    if bool_decide (filter = Some "shortdate") then to_string (formatDate raw "short")
    else if bool_decide (filter = Some "longdate") then to_string (formatDate raw "long")
    else to_string raw
  else to_string raw.

Definition render (template : value) (data : option (gmap string value)) : string :=
  match template with
  | JStr t => if negb (truthy template) then "" else replace_tokens (render_token data) t
  | _ => ""
  end.
End Engine.

(** Insertion into a [Set], which keeps first-insertion order. *)
Definition set_add (found : list string) (key : string) : list string :=
  if bool_decide (key ∈ found) then found else found ++ [key].

(** [val === undefined || val === null || String(val).trim() === ''] *)
Definition is_missing (val : value) : bool :=
  bool_decide (val = JUndefined) || bool_decide (val = JNull)
  || String.eqb (trim (to_string val)) "".

(** [data?.[key]] *)
Definition opt_get (data : option (gmap string value)) (key : string) : value :=
  match data with
  | Some o => get_property o key
  | None => JUndefined
  end.

Definition missingFields (template : value) (data : option (gmap string value))
    : list string :=
  if negb (truthy template) then []
  else
    let found := foldl set_add [] (token_keys (to_string template)) in
    filter (fun key => is_missing (opt_get data key) = true) found.

(** ** The store

    The blob under [STORAGE_KEY] is read back by [JSON.parse] at every
    operation, so no object is shared between two operations; inside one
    operation an entity found in the store is updated in place, which is an
    update of the list at its index. *)

Module Folder.
Record t : Type := mk { id : string; name : string; createdAt : string }.
End Folder.

Module Template.
Record t : Type :=
  mk { id : string; name : string; subject : string; content : string;
       folderId : option string;  (* [None] is [null]: unfiled *)
       createdAt : string; updatedAt : string }.

Definition set_folderId (f : option string) (x : t) : t :=
  mk (id x) (name x) (subject x) (content x) f (createdAt x) (updatedAt x).
Definition set_name (n : string) (x : t) : t :=
  mk (id x) n (subject x) (content x) (folderId x) (createdAt x) (updatedAt x).
Definition set_subject (s : string) (x : t) : t :=
  mk (id x) (name x) s (content x) (folderId x) (createdAt x) (updatedAt x).
Definition set_content (c : string) (x : t) : t :=
  mk (id x) (name x) (subject x) c (folderId x) (createdAt x) (updatedAt x).
Definition set_updatedAt (u : string) (x : t) : t :=
  mk (id x) (name x) (subject x) (content x) (folderId x) (createdAt x) u.
End Template.

(** The argument of [updateTemplate]: a field is [JUndefined] ([None] for
    [folderId]) when the patch does not have it. *)
Module Patch.
Record t : Type :=
  mk { name : value; subject : value; content : value;
       folderId : option (option string) }.
Definition empty : t := mk JUndefined JUndefined JUndefined None.
End Patch.

Record Settings : Type := { sampleSeeded : value }.

Record Store : Type :=
  { version : Z;
    folders : list Folder.t;
    templates : list Template.t;
    settings : Settings }.

(** What the operations act on: the parsed content of the storage slot
    ([None] when the slot is absent, null or not parseable), and how many
    times the clock and the id generator have been consulted. *)
Record World : Type :=
  { localStorage : option Store; clock_reads : nat; uid_draws : nat }.

Definition M (A : Type) : Type := World -> A * World.

Definition ret {A} (a : A) : M A := fun w => (a, w).
Definition bind {A B} (c : M A) (k : A -> M B) : M B :=
  fun w => let '(a, w') := c w in k a w'.

Notation "'let!' x ':=' c 'in' k" := (bind c (fun x => k))
  (at level 10, x pattern, c at level 100, k at level 200).
Notation "c ';;' k" := (bind c (fun _ => k))
  (at level 100, k at level 200, right associativity).

Definition exec {A} (c : M A) (w : World) : World := snd (c w).
Definition result {A} (c : M A) (w : World) : A := fst (c w).

(** [a || b] on strings *)
Definition str_or (a b : string) : string := if String.eqb a "" then b else a.
(** [a || b] on values *)
Definition js_or (a b : value) : value := if truthy a then a else b.

Definition initial : Store :=
  {| version := 1; folders := []; templates := [];
     settings := {| sampleSeeded := JUndefined |} |}.

(** The body of the sample template. Its last line begins with a dash that
    lies outside the 8-bit alphabet and is written here as in the source
    file; no property depends on it. *)
Definition sample_content : string :=
"Hi {{first_name}},

Nice speaking with {{spoke_to}} at {{company_name}}.

As mentioned, compared to {{competitor}}, we can streamline your process and reduce admin. 
Are you free on {{date_1|longdate}} or {{date_2|shortdate}} to chat?

Thanks,
— Your Name".

Section StoreOps.
(** The [n]-th reading of the clock, as an ISO string, and the [n]-th
    generated identifier. *)
Variable nowISO_at : nat -> string.
Variable uid_at : nat -> string.

Definition nowISO : M string := fun w =>
  (nowISO_at (clock_reads w),
   {| localStorage := localStorage w; clock_reads := S (clock_reads w);
      uid_draws := uid_draws w |}).

Definition uid : M string := fun w =>
  (uid_at (uid_draws w),
   {| localStorage := localStorage w; clock_reads := clock_reads w;
      uid_draws := S (uid_draws w) |}).

Definition setItem (s : Store) : M unit := fun w =>
  (tt, {| localStorage := Some s; clock_reads := clock_reads w;
          uid_draws := uid_draws w |}).

(** The migration step of [getStore]: [if (!store.version) store.version = 1].
    A blob that parses to an object is taken to have its four fields, so
    the three other defaults of the source never apply; version 0 stands
    for a version that is missing or zero. *)
Definition migrate (store : Store) : Store :=
  {| version := if version store =? 0 then 1 else version store;
     folders := folders store; templates := templates store;
     settings := settings store |}.

Definition getStore : M Store := fun w =>
  match localStorage w with
  | None => (setItem initial;; ret initial) w
  | Some store => ret (migrate store) w
  end.

Definition saveStore (next : Store) : M Store := setItem next;; ret next.

Definition ensureSampleTemplate : M unit :=
  let! store := getStore in
  if bool_decide (sampleSeeded (settings store) = JBool true) then ret tt
  else
    let! templates' :=
      (if (length (templates store) =? 0)%nat then
         let! id := uid in
         let! created := nowISO in
         let! updated := nowISO in
         ret (templates store ++
              [Template.mk id "Sample — Quick Follow-up"
                 "Quick follow-up with {{company_name}}" sample_content
                 None created updated])
       else ret (templates store)) in
    saveStore {| version := version store; folders := folders store;
                 templates := templates';
                 settings := {| sampleSeeded := JBool true |} |};;
    ret tt.

(** *** Folders *)

Definition listFolders : M (list Folder.t) :=
  let! store := getStore in ret (folders store).

Definition createFolder (name : value) : M Folder.t :=
  let! store := getStore in
  let! id := uid in
  let! created := nowISO in
  let folder :=
    Folder.mk id
      (str_or (trim (to_string (js_or name (JStr "New Folder")))) "New Folder")
      created in
  saveStore {| version := version store; folders := folders store ++ [folder];
               templates := templates store; settings := settings store |};;
  ret folder.

Definition renameFolder (id : string) (newName : value) : M bool :=
  let! store := getStore in
  match list_find (fun x => Folder.id x = id) (folders store) with
  | None => ret false
  | Some (i, f) =>
      let f' := Folder.mk (Folder.id f)
                  (str_or (trim (to_string (js_or newName (JStr "")))) (Folder.name f))
                  (Folder.createdAt f) in
      saveStore {| version := version store; folders := <[i := f']> (folders store);
                   templates := templates store; settings := settings store |};;
      ret true
  end.

Definition deleteFolder (id : string) (mode : string) : M bool :=
  let! store := getStore in
  match list_find (fun x => Folder.id x = id) (folders store) with
  | None => ret false
  | Some (idx, _) =>
      let templates' :=
        if String.eqb mode "deleteTemplates" then
          filter (fun t => Template.folderId t <> Some id) (templates store)
        else
          (fun t => if bool_decide (Template.folderId t = Some id)
                    then Template.set_folderId None t else t) <$> templates store in
      saveStore {| version := version store; folders := delete idx (folders store);
                   templates := templates'; settings := settings store |};;
      ret true
  end.

(** [folderId || null] *)
Definition or_null (folderId : option string) : option string :=
  match folderId with
  | Some f => if String.eqb f "" then None else Some f
  | None => None
  end.

Definition moveTemplatesToFolder (templateIds : list string)
    (folderId : option string) : M bool :=
  let! store := getStore in
  let templates' :=
    (fun t => if bool_decide (Template.id t ∈ templateIds)
              then Template.set_folderId (or_null folderId) t else t)
      <$> templates store in
  saveStore {| version := version store; folders := folders store;
               templates := templates'; settings := settings store |};;
  ret true.

(** *** Templates *)

Definition getTemplate (id : string) : M (option Template.t) :=
  let! store := getStore in
  ret (snd <$> list_find (fun t => Template.id t = id) (templates store)).

Definition createTemplate (name subject content : value)
    (folderId : option string) : M Template.t :=
  let! store := getStore in
  let! id := uid in
  let! created := nowISO in
  let! updated := nowISO in
  let t :=
    Template.mk id
      (str_or (trim (to_string (js_or name (JStr "Untitled Template"))))
              "Untitled Template")
      (trim (to_string (js_or subject (JStr ""))))
      (trim (to_string (js_or content (JStr ""))))
      folderId created updated in
  saveStore {| version := version store; folders := folders store;
               templates := templates store ++ [t]; settings := settings store |};;
  ret t.

Definition apply_patch (patch : Patch.t) (t : Template.t) : Template.t :=
  let t1 := if bool_decide (Patch.name patch <> JUndefined)
            then Template.set_name
                   (str_or (trim (to_string (Patch.name patch))) (Template.name t)) t
            else t in
  let t2 := if bool_decide (Patch.subject patch <> JUndefined)
            then Template.set_subject (trim (to_string (Patch.subject patch))) t1
            else t1 in
  let t3 := if bool_decide (Patch.content patch <> JUndefined)
            then Template.set_content (to_string (Patch.content patch)) t2
            else t2 in
  match Patch.folderId patch with
  | Some f => Template.set_folderId f t3
  | None => t3
  end.

Definition updateTemplate (id : string) (patch : Patch.t) : M bool :=
  let! store := getStore in
  match list_find (fun x => Template.id x = id) (templates store) with
  | None => ret false
  | Some (i, t) =>
      let t' := apply_patch patch t in
      let! now := nowISO in
      saveStore {| version := version store; folders := folders store;
                   templates := <[i := Template.set_updatedAt now t']> (templates store);
                   settings := settings store |};;
      ret true
  end.

Definition deleteTemplate (id : string) : M bool :=
  let! store := getStore in
  match list_find (fun x => Template.id x = id) (templates store) with
  | None => ret false
  | Some (i, _) =>
      saveStore {| version := version store; folders := folders store;
                   templates := delete i (templates store);
                   settings := settings store |};;
      ret true
  end.

(** *** A lifetime of the store: the operations pages perform on it

    The pages reach the store through these operations only; [getStore]
    and [saveStore] are exported as well but no page calls them, and the
    storage slot is not written from elsewhere. *)

Inductive op : Type :=
  | EnsureSampleTemplate
  | ListFolders
  | CreateFolder (name : value)
  | RenameFolder (id : string) (newName : value)
  | DeleteFolder (id : string) (mode : string)
  | MoveTemplatesToFolder (templateIds : list string) (folderId : option string)
  | GetTemplate (id : string)
  | CreateTemplate (name subject content : value) (folderId : option string)
  | UpdateTemplate (id : string) (patch : Patch.t)
  | DeleteTemplate (id : string).

Definition run_op (o : op) : M unit :=
  match o with
  | EnsureSampleTemplate => ensureSampleTemplate
  | ListFolders => listFolders;; ret tt
  | CreateFolder name => createFolder name;; ret tt
  | RenameFolder id newName => renameFolder id newName;; ret tt
  | DeleteFolder id mode => deleteFolder id mode;; ret tt
  | MoveTemplatesToFolder ids f => moveTemplatesToFolder ids f;; ret tt
  | GetTemplate id => getTemplate id;; ret tt
  | CreateTemplate n s c f => createTemplate n s c f;; ret tt
  | UpdateTemplate id patch => updateTemplate id patch;; ret tt
  | DeleteTemplate id => deleteTemplate id;; ret tt
  end.

Fixpoint run_ops (os : list op) : M unit :=
  match os with
  | [] => ret tt
  | o :: os' => run_op o;; run_ops os'
  end.

(** The store as the next operation reads it. *)
Definition view (w : World) : Store := result getStore w.
End StoreOps.

(** ** A concrete environment: en-US locale, UTC time zone

    Dates are time values (milliseconds since the epoch). The parser
    accepts the two ISO forms the pages produce, a date and a date-time
    without offset, for days that exist in the calendar; what else an
    engine reads (other spellings of a date, days past the end of a
    month) is left unparsed here. The formatter prints the en-US pattern
    "month day, year". *)

Module EnUS.
Definition ms_per_day : Z := 86400000.

Definition days_from_civil (y m d : Z) : Z :=
  let y' := if m <=? 2 then y - 1 else y in
  let era := y' / 400 in
  let yoe := y' - era * 400 in
  let doy := (153 * (if m >? 2 then m - 3 else m + 9) + 2) / 5 + d - 1 in
  let doe := yoe * 365 + yoe / 4 - yoe / 100 + doy in
  era * 146097 + doe - 719468.

Definition civil_from_days (z : Z) : Z * Z * Z :=
  let z' := z + 719468 in
  let era := z' / 146097 in
  let doe := z' - era * 146097 in
  let yoe := (doe - doe / 1460 + doe / 36524 - doe / 146096) / 365 in
  let doy := doe - (365 * yoe + yoe / 4 - yoe / 100) in
  let mp := (5 * doy + 2) / 153 in
  let d := doy - (153 * mp + 2) / 5 + 1 in
  let m := if mp <? 10 then mp + 3 else mp - 9 in
  (if m <=? 2 then yoe + era * 400 + 1 else yoe + era * 400, m, d).

Definition is_leap (y : Z) : bool :=
  (y mod 4 =? 0) && (negb (y mod 100 =? 0) || (y mod 400 =? 0)).

Definition days_in_month (y m : Z) : Z :=
  if m =? 2 then (if is_leap y then 29 else 28)
  else if (m =? 4) || (m =? 6) || (m =? 9) || (m =? 11) then 30 else 31.

Definition digit (c : ascii) : Z := Z.of_N (code c) - 48.

Fixpoint number (acc : Z) (s : string) : Z :=
  match s with
  | EmptyString => acc
  | String c s' => number (10 * acc + digit c) s'
  end.

Definition hms_pattern : list (ascii -> bool) :=
  [ (fun c => (code c =? 84)%N); is_digit; is_digit; (fun c => (code c =? 58)%N);
    is_digit; is_digit; (fun c => (code c =? 58)%N); is_digit; is_digit ].

Definition parse (s : string) : option Z :=
  let ymd := String.substring 0 10 s in
  let rest := String.substring 10 (String.length s - 10) s in
  if match_classes ymd_pattern ymd
     && (String.eqb rest "" || match_classes hms_pattern rest) then
    let y := number 0 (String.substring 0 4 s) in
    let m := number 0 (String.substring 5 2 s) in
    let d := number 0 (String.substring 8 2 s) in
    let h := number 0 (String.substring 11 2 s) in
    let mi := number 0 (String.substring 14 2 s) in
    let sec := number 0 (String.substring 17 2 s) in
    if (1 <=? m) && (m <=? 12) && (1 <=? d) && (d <=? days_in_month y m)
       && (h <=? 23) && (mi <=? 59) && (sec <=? 59)
    then Some (days_from_civil y m d * ms_per_day + ((h * 60 + mi) * 60 + sec) * 1000)
    else None
  else None.

Definition of_time (n : Z) : option Z :=
  if Z.abs n <=? 8640000000000000 then Some n else None.

Definition month_names : list (string * string) :=
  [ ("January", "Jan"); ("February", "Feb"); ("March", "Mar"); ("April", "Apr");
    ("May", "May"); ("June", "Jun"); ("July", "Jul"); ("August", "Aug");
    ("September", "Sep"); ("October", "Oct"); ("November", "Nov");
    ("December", "Dec") ].

Definition two_digits (n : Z) : string :=
  (if n mod 100 <? 10 then "0" else "") +:+ Z_to_string (n mod 100).

Definition format (opts : dtf_options) (t : Z) : string :=
  let '(y, m, d) := civil_from_days (t / ms_per_day) in
  let names := default ("", "") (month_names !! Z.to_nat (m - 1)) in
  let ms := match month opts with
            | Long => fst names
            | Short => snd names
            | TwoDigit => two_digits m
            | Numeric => Z_to_string m
            end in
  let ds := match day opts with TwoDigit => two_digits d | _ => Z_to_string d end in
  let ys := match year opts with TwoDigit => two_digits y | _ => Z_to_string y end in
  ms +:+ " " +:+ ds +:+ ", " +:+ ys.

Definition env : DateEnv :=
  {| date := Z; Date_parse := parse; Date_of_time := of_time; Intl_format := format |}.
End EnUS.

(** ** A concrete environment with a time zone: en-US locale, fixed offset

    The year, month and day that the first ten characters of an ISO date
    spell, and whether that day exists in the calendar. *)

Definition ymd_fields (s : string) : Z * Z * Z :=
  (EnUS.number 0 (String.substring 0 4 s),
   EnUS.number 0 (String.substring 5 2 s),
   EnUS.number 0 (String.substring 8 2 s)).

Definition valid_dateb (ymd : Z * Z * Z) : bool :=
  let '(y, m, d) := ymd in
  (1 <=? m) && (m <=? 12) && (1 <=? d) && (d <=? EnUS.days_in_month y m).

(** The en-US text of a calendar day under the options of a formatter. *)
Definition show_day (opts : dtf_options) (ymd : Z * Z * Z) : string :=
  let '(y, m, d) := ymd in
  let names := default ("", "") (EnUS.month_names !! Z.to_nat (m - 1)) in
  let ms := match month opts with
            | Long => fst names
            | Short => snd names
            | TwoDigit => EnUS.two_digits m
            | Numeric => Z_to_string m
            end in
  let ds := match day opts with TwoDigit => EnUS.two_digits d | _ => Z_to_string d end in
  let ys := match year opts with TwoDigit => EnUS.two_digits y | _ => Z_to_string y end in
  ms +:+ " " +:+ ds +:+ ", " +:+ ys.

(** A browser whose time zone is [off] minutes ahead of UTC all year. A
    Date is held as its calendar day in that zone and the seconds since
    midnight there. A date-time without offset is local time; a date
    alone, and a date-time ending in Z, are UTC. *)
Module Zoned.
Record t : Type := mk { local_day : Z * Z * Z; local_secs : Z }.

Definition next_day (ymd : Z * Z * Z) : Z * Z * Z :=
  let '(y, m, d) := ymd in
  if d <? EnUS.days_in_month y m then (y, m, d + 1)
  else if m <? 12 then (y, m + 1, 1) else (y + 1, 1, 1).

Definition prev_day (ymd : Z * Z * Z) : Z * Z * Z :=
  let '(y, m, d) := ymd in
  if 1 <? d then (y, m, d - 1)
  else if 1 <? m then (y, m - 1, EnUS.days_in_month y (m - 1)) else (y - 1, 12, 31).

(** The local day and time of a UTC day and time; offsets are less than a
    day. *)
Definition to_local (off : Z) (utc_day : Z * Z * Z) (utc_secs : Z) : t :=
  let s := utc_secs + off * 60 in
  if s <? 0 then mk (prev_day utc_day) (s + 86400)
  else if 86400 <=? s then mk (next_day utc_day) (s - 86400)
  else mk utc_day s.

Definition utc_suffix : list (ascii -> bool) :=
  [ (fun c => (code c =? 46)%N); is_digit; is_digit; is_digit;
    (fun c => (code c =? 90)%N) ].

Definition day_secs (s : string) : option Z :=
  let h := EnUS.number 0 (String.substring 11 2 s) in
  let mi := EnUS.number 0 (String.substring 14 2 s) in
  let sec := EnUS.number 0 (String.substring 17 2 s) in
  if (h <=? 23) && (mi <=? 59) && (sec <=? 59)
  then Some ((h * 60 + mi) * 60 + sec) else None.

Definition parse (off : Z) (s : string) : option t :=
  if negb (valid_dateb (ymd_fields s)) then None
  else if match_classes ymd_pattern s then
    Some (to_local off (ymd_fields s) 0)
  else if match_classes (ymd_pattern ++ EnUS.hms_pattern) s then
    mk (ymd_fields s) <$> day_secs s
  else if match_classes (ymd_pattern ++ EnUS.hms_pattern ++ utc_suffix) s then
    to_local off (ymd_fields s) <$> day_secs s
  else None.

Definition of_time (off : Z) (n : Z) : option t :=
  if Z.abs n <=? 8640000000000000 then
    Some (to_local off (EnUS.civil_from_days (n / EnUS.ms_per_day))
            (n mod EnUS.ms_per_day / 1000))
  else None.

Definition format (opts : dtf_options) (d : t) : string :=
  show_day opts (local_day d).

Definition env (off : Z) : DateEnv :=
  {| date := t; Date_parse := parse off; Date_of_time := of_time off;
     Intl_format := format |}.
End Zoned.

(** ** Listing templates *)

Section Listing.
(** [a.localeCompare(b)]: negative, zero or positive. It depends on the
    locale of the browser. *)
Variable localeCompare : string -> string -> Z.

(** [xs.sort((a, b) => a.name.localeCompare(b.name))]. The sort of an array
    is stable, so for a comparison that is a total preorder its result is
    the one of this insertion sort: an element goes before the first one
    it does not follow. *)
Fixpoint sort_insert (x : Template.t) (l : list Template.t) : list Template.t :=
  match l with
  | [] => [x]
  | y :: l' =>
      if localeCompare (Template.name x) (Template.name y) <=? 0
      then x :: y :: l' else y :: sort_insert x l'
  end.

Definition sort_by_name (l : list Template.t) : list Template.t :=
  foldr sort_insert [] l.

(** The [folderId] of the filter: [None] when the filter has none
    (undefined), [Some None] for null, [Some (Some id)] for an id. *)
Definition listTemplates (folderId : option (option string)) : M (list Template.t) :=
  let! store := getStore in
  let all := sort_by_name (templates store) in
  match folderId with
  | None => ret all
  | Some f => ret (filter (fun t => Template.folderId t = f) all)
  end.
End Listing.

(** ** The builder page (builder.js) *)

Definition PLACEHOLDER_KEYS : list string :=
  ["first_name"; "spoke_to"; "company_name"; "competitor"; "date_1"; "date_2"].

(** [s.slice(0, n)] and [s.slice(n)] for an index [n >= 0]. *)
Fixpoint str_take (n : nat) (s : string) : string :=
  match n, s with
  | S n', String c s' => String c (str_take n' s')
  | _, _ => EmptyString
  end.

Fixpoint str_drop (n : nat) (s : string) : string :=
  match n, s with
  | S n', String c s' => str_drop n' s'
  | _, _ => s
  end.

(** A text field: its value and its selection ([None] where the element
    has no selection, which reads as null). *)
Module Editable.
Record t : Type :=
  mk { value : string; selectionStart : option nat; selectionEnd : option nat }.
End Editable.

Definition insertAtCursor (el : Editable.t) (text : string) : Editable.t :=
  let start := default (String.length (Editable.value el)) (Editable.selectionStart el) in
  let end_ := default (String.length (Editable.value el)) (Editable.selectionEnd el) in
  let before := str_take start (Editable.value el) in
  let after := str_drop end_ (Editable.value el) in
  let caret := (start + String.length text)%nat in
  Editable.mk (before +:+ text +:+ after) (Some caret) (Some caret).

(** The text a stamp button inserts for its key. *)
Definition stamp (key : string) : string := "{{" +:+ key +:+ "}}".

(** What the Save button does with the name, subject, body and folder
    fields: one of two alerts, or the template it created. *)
Inductive save_outcome : Type :=
  | AlertContent
  | AlertName
  | Saved (t : Template.t).

Section Builder.
Variable nowISO_at : nat -> string.
Variable uid_at : nat -> string.

Definition saveTemplate (name subject body folder : string) : M save_outcome :=
  let name := trim (str_or name "") in
  let subject := trim (str_or subject "") in
  let content := trim (str_or body "") in
  let folderId := if String.eqb folder "" then None else Some folder in
  if String.eqb content "" then ret AlertContent
  else if String.eqb name "" then ret AlertName
  else
    (let! t := createTemplate nowISO_at uid_at (JStr name) (JStr subject) (JStr content)
                 folderId in
     ret (Saved t)).
End Builder.

(** ** The library page (library.js) *)

(** One turn of the loop of [countTemplatesByFolder] on the [Map]. *)
Definition count_step (m : gmap string nat) (t : Template.t) : gmap string nat :=
  match Template.folderId t with
  | Some id =>
      if String.eqb id "" then m
      else <[id := (default 0 (m !! id) + 1)%nat]> m
  | None => m
  end.

Definition countTemplatesByFolder (ts : list Template.t) : gmap string nat :=
  foldl count_step ∅ ts.

(** [countByFolder.get(id) || 0], the number shown on the row of a folder. *)
Definition folder_count (m : gmap string nat) (id : string) : nat :=
  default 0%nat (m !! id).

(** ** Vocabulary of the properties *)

(** The first character of [s], if any, fails [p]. *)
Definition head_fails (p : ascii -> bool) (s : string) : Prop :=
  match s with
  | EmptyString => True
  | String c _ => p c = false
  end.

(** The text of the optional group of the pattern. *)
Definition filter_text (filter : option string) : string :=
  match filter with
  | Some f => "|" +:+ f
  | None => ""
  end.

(** The pattern, declaratively: [s] begins with a placeholder with this key
    and filter, followed by [rest]: two opening braces, white space, a
    non-empty run of word characters, optionally a bar and a non-empty run
    of letters, white space, two closing braces. *)
Definition token_shape (s key : string) (filter : option string) (rest : string) : Prop :=
  exists ws1 ws2 : string,
    all_chars is_space ws1 = true /\ all_chars is_space ws2 = true /\
    key <> "" /\ all_chars is_word key = true /\
    (forall f, filter = Some f -> f <> "" /\ all_chars is_alpha f = true) /\
    s = "{{" +:+ ws1 +:+ key +:+ filter_text filter +:+ ws2 +:+ "}}" +:+ rest.

(** A string without an opening brace holds no placeholder. *)
Definition brace_free (s : string) : Prop :=
  Forall (fun c => c <> "{"%char) (list_ascii_of_string s).

(** What the pattern accepts as a key, and as a filter name. *)
Definition valid_key (key : string) : Prop :=
  key <> "" /\ all_chars is_word key = true.

Definition valid_filter (f : string) : Prop :=
  f <> "" /\ all_chars is_alpha f = true.

(** The keys of a list, each at its first occurrence. *)
Fixpoint first_occurrences (l : list string) : list string :=
  match l with
  | [] => []
  | x :: l' => x :: filter (fun y => y <> x) (first_occurrences l')
  end.

(** The dates [/^\d{4}-\d{2}-\d{2}$/] accepts: four digits, a dash, two
    digits, a dash, two digits, and nothing else. *)
Definition is_ymd (s : string) : Prop :=
  exists y m d : string,
    s = y +:+ "-" +:+ m +:+ "-" +:+ d /\
    String.length y = 4%nat /\ String.length m = 2%nat /\ String.length d = 2%nat /\
    all_chars is_digit y = true /\ all_chars is_digit m = true /\
    all_chars is_digit d = true.

(** The options of the two formatters of [formatDate]. *)
Definition long_date : dtf_options :=
  {| year := Numeric; month := Long; day := Numeric |}.
Definition short_date : dtf_options :=
  {| year := TwoDigit; month := Short; day := Numeric |}.

(** [v] holds placeholder syntax: two opening braces and, later, two
    closing ones. *)
Definition holds_placeholder_syntax (v : string) : Prop :=
  exists a b c : string, v = a +:+ "{{" +:+ b +:+ "}}" +:+ c.

(** The first-run flag is set in the store as the next operation reads it. *)
Definition seeded (w : World) : Prop :=
  sampleSeeded (settings (view w)) = JBool true.

(** What [deleteFolder] in its default mode does to one template. *)
Definition unfile (id : string) (t : Template.t) : Template.t :=
  if bool_decide (Template.folderId t = Some id) then Template.set_folderId None t else t.

(** ** Sample data *)

Definition old_stamp : string := "2024-01-01T00:00:00.000Z".

(** A clock that reads 09:00:00, 09:00:01, ... on 2024-03-05 (the first
    sixty readings), and an id generator. *)
Definition sample_clock (n : nat) : string :=
  "2024-03-05T09:00:" +:+ EnUS.two_digits (Z.of_nat n) +:+ ".000Z".
Definition sample_ids (n : nat) : string := "id_" +:+ Z_to_string (Z.of_nat n).

Definition offer : Template.t :=
  Template.mk "t1" "Offer" "" "Hi {{first_name}}" (Some "f1") old_stamp old_stamp.
Definition reminder : Template.t :=
  Template.mk "t2" "Reminder" "" "See you on {{date_1|longdate}}" None old_stamp old_stamp.

Definition sample_world : World :=
  {| localStorage :=
       Some {| version := 1;
               folders := [Folder.mk "f1" "Leads" old_stamp;
                           Folder.mk "f2" "Clients" old_stamp];
               templates := [offer; reminder];
               settings := {| sampleSeeded := JBool true |} |};
     clock_reads := 0; uid_draws := 0 |}.

Definition fresh_world : World :=
  {| localStorage := None; clock_reads := 0; uid_draws := 0 |}.

(** A string with no white space at either end. *)
Definition trimmed (s : string) : Prop :=
  head_fails is_space s /\ head_fails is_space (String.rev s).

(** Every folder and every template has a name. *)
Definition names_ok (s : Store) : Prop :=
  Forall (fun f => Folder.name f <> "") (folders s) /\
  Forall (fun t => Template.name t <> "") (templates s).

(** Every template is unfiled or refers to a folder of the store. *)
Definition refs_ok (s : Store) : Prop :=
  forall t id, t ∈ templates s -> Template.folderId t = Some id ->
               id ∈ Folder.id <$> folders s.

(** Folder ids are pairwise distinct, template ids are pairwise distinct,
    and no id the generator has yet to draw is in use. *)
Definition ids_ok (uid_at : nat -> string) (w : World) : Prop :=
  NoDup (Folder.id <$> folders (view w)) /\
  NoDup (Template.id <$> templates (view w)) /\
  forall n, (uid_draws w <= n)%nat ->
            (uid_at n ∉ (Folder.id <$> folders (view w))) /\
            (uid_at n ∉ (Template.id <$> templates (view w))).

(** The order of [listTemplates]: no template is followed by one whose
    name compares before its own. *)
Definition name_sorted (localeCompare : string -> string -> Z)
    (l : list Template.t) : Prop :=
  StronglySorted
    (fun a b => localeCompare (Template.name a) (Template.name b) <= 0) l.

(** An id generator for examples: "id_", then as many x as draws so far. *)
Fixpoint unary_ids (n : nat) : string :=
  match n with
  | O => "id_"
  | S n' => unary_ids n' +:+ "x"
  end.

(** A comparison for examples: the order of the code units, as
    [localeCompare] gives it on plain letters of one case. *)
Definition code_unit_compare (a b : string) : Z :=
  if bool_decide (String.le a b) then (if bool_decide (a = b) then 0 else -1) else 1.

(** The day exists in the calendar. *)
Definition valid_date (ymd : Z * Z * Z) : Prop := valid_dateb ymd = true.

(** The text of a placeholder: braces, white space, key, optional filter,
    white space, braces. *)
Definition token_text (ws1 key : string) (filter : option string) (ws2 : string) : string :=
  "{{" +:+ ws1 +:+ key +:+ filter_text filter +:+ ws2 +:+ "}}".

(* ===================================================================== *)
(** * Part II: properties                                                 *)
(* ===================================================================== *)

(** ** Strings *)

Local Arguments String.append !_ _ / : simpl nomatch.

Lemma str_app_nil_r (s : string) : s +:+ "" = s.
Proof. induction s as [|c s IH]; simpl; congruence. Qed.

Lemma str_app_assoc (a b c : string) : (a +:+ b) +:+ c = a +:+ b +:+ c.
Proof. induction a as [|x a IH]; simpl; congruence. Qed.

Lemma str_length_app (a b : string) :
  String.length (a +:+ b) = (String.length a + String.length b)%nat.
Proof. induction a as [|x a IH]; simpl; congruence. Qed.

Lemma str_eqb_false (a b : string) : a <> b -> String.eqb a b = false.
Proof. apply String.eqb_neq. Qed.

Lemma span_spec p s a b :
  span p s = (a, b) -> s = a +:+ b /\ all_chars p a = true /\ head_fails p b.
Proof.
  revert a b. induction s as [|c s IH]; simpl; intros a b E.
  - by inversion E.
  - destruct (p c) eqn:Hc.
    + destruct (span p s) as [a' b'] eqn:E'. inversion E; subst.
      destruct (IH a' b eq_refl) as (-> & Ha & Hb).
      unfold all_chars in *. simpl. by rewrite Hc, Ha.
    + inversion E; subst. simpl. done.
Qed.

Lemma span_app p a b :
  all_chars p a = true -> head_fails p b -> span p (a +:+ b) = (a, b).
Proof.
  unfold all_chars. induction a as [|c a IH]; simpl; intros Ha Hb.
  - destruct b as [|c b]; simpl in *; [done | by rewrite Hb].
  - apply andb_prop in Ha as [Hc Ha]. by rewrite Hc, IH.
Qed.

Lemma skip_spaces_app ws s :
  all_chars is_space ws = true -> head_fails is_space s -> skip_spaces (ws +:+ s) = s.
Proof. intros Hw Hs. unfold skip_spaces. by rewrite span_app. Qed.

Lemma skip_spaces_spec s :
  exists ws, s = ws +:+ skip_spaces s /\ all_chars is_space ws = true
             /\ head_fails is_space (skip_spaces s).
Proof.
  unfold skip_spaces. destruct (span is_space s) as [ws r] eqn:E.
  exists ws. by apply span_spec.
Qed.

(** ** Character classes are disjoint from what may follow them *)

Lemma word_not_space c : is_word c = true -> is_space c = false.
Proof. destruct c as [[] [] [] [] [] [] [] []]; by vm_compute. Qed.

Lemma alpha_is_word c : is_alpha c = true -> is_word c = true.
Proof. unfold is_word. by intros ->. Qed.

Lemma space_not_word c : is_space c = true -> is_word c = false.
Proof. destruct c as [[] [] [] [] [] [] [] []]; by vm_compute. Qed.

Lemma head_of_nonempty p a b :
  a <> "" -> all_chars p a = true ->
  forall q, (forall c, p c = true -> q c = false) -> head_fails q (a +:+ b).
Proof.
  destruct a as [|c a]; [done|]. unfold all_chars; simpl.
  intros _ Hc%andb_prop q Hq. apply Hq, Hc.
Qed.

Lemma close_braces_spec s rest : close_braces s = Some rest <-> s = "}}" +:+ rest.
Proof.
  split.
  - destruct s as [|c1 [|c2 s]]; simpl; try done;
      destruct c1 as [[] [] [] [] [] [] [] []]; try done.
    destruct c2 as [[] [] [] [] [] [] [] []]; try done. by intros [= ->].
  - by intros ->.
Qed.

Lemma spaces_then_braces ws rest :
  all_chars is_space ws = true -> skip_spaces (ws +:+ "}}" +:+ rest) = "}}" +:+ rest.
Proof. intros Hw. by apply skip_spaces_app. Qed.

Lemma head_spaces_braces (q : ascii -> bool) ws rest :
  (forall c, is_space c = true -> q c = false) -> q "}"%char = false ->
  all_chars is_space ws = true -> head_fails q (ws +:+ "}}" +:+ rest).
Proof.
  intros Hq Hb. destruct ws as [|c ws]; simpl; [done|].
  unfold all_chars; simpl. intros Hc%andb_prop. apply Hq, Hc.
Qed.

Lemma space_not_alpha c : is_space c = true -> is_alpha c = false.
Proof.
  intros Hc%space_not_word. unfold is_word in Hc.
  by destruct (is_alpha c).
Qed.

Lemma re_filter_complete f ws rest :
  f <> "" -> all_chars is_alpha f = true -> all_chars is_space ws = true ->
  re_filter ("|" +:+ f +:+ ws +:+ "}}" +:+ rest) = Some (f, rest).
Proof.
  intros Hf Ha Hw. simpl.
  change (String "}" (String "}" rest)) with ("}}" +:+ rest).
  rewrite span_app; [| done | by apply head_spaces_braces; [apply space_not_alpha | |]].
  rewrite str_eqb_false by done. by rewrite spaces_then_braces.
Qed.

Lemma re_filter_none ws rest :
  all_chars is_space ws = true -> re_filter (ws +:+ "}}" +:+ rest) = None.
Proof.
  destruct ws as [|c ws]; [done|]. unfold all_chars; simpl.
  intros Hc%andb_prop. destruct Hc as [Hc _].
  destruct c as [[] [] [] [] [] [] [] []]; try done.
Qed.

(** Every way of reading a placeholder at the start of [s] is the one
    [re_exec] returns: greedy matching loses no match and the match is
    unique. *)
Lemma re_exec_complete s key filter rest :
  token_shape s key filter rest -> re_exec s = Some (key, filter, rest).
Proof.
  intros (ws1 & ws2 & H1 & H2 & Hk & Hw & Hf & ->).
  change ("{{" +:+ ?x) with (String "{" (String "{" x)). cbv beta iota delta [re_exec].
  assert (Htail : head_fails is_word (filter_text filter +:+ ws2 +:+ "}}" +:+ rest)).
  { destruct filter as [f|]; simpl; [done|].
    by apply head_spaces_braces; [apply space_not_word | |]. }
  rewrite skip_spaces_app; [| done | by eapply head_of_nonempty, word_not_space].
  rewrite span_app by done. rewrite str_eqb_false by done.
  destruct filter as [f|].
  - destruct (Hf f eq_refl) as [Hne Ha].
    change (filter_text (Some f) +:+ ws2 +:+ "}}" +:+ rest)
      with ("|" +:+ f +:+ ws2 +:+ "}}" +:+ rest).
    by rewrite re_filter_complete.
  - change (filter_text None +:+ ws2 +:+ "}}" +:+ rest) with (ws2 +:+ "}}" +:+ rest).
    rewrite re_filter_none by done.
    by rewrite spaces_then_braces.
Qed.

Lemma re_filter_sound s f rest :
  re_filter s = Some (f, rest) ->
  exists ws, all_chars is_space ws = true /\ f <> "" /\ all_chars is_alpha f = true /\
             s = "|" +:+ f +:+ ws +:+ "}}" +:+ rest.
Proof.
  destruct s as [|c s]; [done|]. simpl.
  destruct c as [[] [] [] [] [] [] [] []]; try done.
  destruct (span is_alpha s) as [a b] eqn:E.
  destruct (String.eqb_spec a "") as [|Hne]; [done|].
  destruct (close_braces (skip_spaces b)) as [r|] eqn:Hc; [|done].
  simpl. intros [= -> ->].
  apply span_spec in E as (-> & Ha & _).
  apply close_braces_spec in Hc.
  destruct (skip_spaces_spec b) as (ws & Hb & Hws & _).
  exists ws. split_and!; try done.
  rewrite Hb at 1. by rewrite Hc.
Qed.

Lemma re_exec_sound s key filter rest :
  re_exec s = Some (key, filter, rest) -> token_shape s key filter rest.
Proof.
  destruct s as [|c1 [|c2 s]]; try done; simpl.
  - by destruct c1 as [[] [] [] [] [] [] [] []].
  - destruct c1 as [[] [] [] [] [] [] [] []]; try done.
    destruct c2 as [[] [] [] [] [] [] [] []]; try done.
    destruct (skip_spaces_spec s) as (ws1 & Hs & Hws1 & _).
    destruct (span is_word (skip_spaces s)) as [k s2] eqn:E.
    destruct (String.eqb_spec k "") as [|Hne]; [done|].
    apply span_spec in E as (E & Hk & _).
    destruct (re_filter s2) as [[f r]|] eqn:Hf.
    + intros [= -> <- ->].
      apply re_filter_sound in Hf as (ws2 & Hws2 & Hfne & Hfa & ->).
      exists ws1, ws2. split_and!; try done.
      * by intros ? [= <-].
      * rewrite Hs at 1. by rewrite E.
    + destruct (close_braces (skip_spaces s2)) as [r|] eqn:Hc; [|done].
      simpl. intros [= -> <- ->].
      apply close_braces_spec in Hc.
      destruct (skip_spaces_spec s2) as (ws2 & Hs2 & Hws2 & _).
      exists ws1, ws2. split_and!; try done.
      rewrite Hs at 1. rewrite E. rewrite Hs2 at 1. by rewrite Hc.
Qed.

(** ** The scan *)

Lemma re_exec_shorter s key filter rest :
  re_exec s = Some (key, filter, rest) -> (String.length rest < String.length s)%nat.
Proof.
  intros (ws1 & ws2 & _ & _ & _ & _ & _ & ->)%re_exec_sound.
  rewrite !str_length_app. simpl. lia.
Qed.

Lemma re_exec_brace c s : c <> "{"%char -> re_exec (String c s) = None.
Proof.
  intros Hc. destruct (re_exec (String c s)) as [[[k f] r]|] eqn:E; [|done].
  apply re_exec_sound in E as (ws1 & ws2 & _ & _ & _ & _ & _ & E).
  simpl in E. by injection E as -> _.
Qed.

Lemma tokenize_fuel_irrelevant n m s :
  (String.length s <= n)%nat -> (String.length s <= m)%nat ->
  tokenize_fuel n s = tokenize_fuel m s.
Proof.
  revert m s. induction n as [|n IH]; intros m s Hn Hm.
  - destruct s; simpl in *; [by destruct m | lia].
  - destruct s as [|c s]; [by destruct m|].
    destruct m as [|m]; simpl in Hm; [lia|].
    cbn [tokenize_fuel]. simpl in Hn.
    destruct (re_exec (String c s)) as [[[k f] r]|] eqn:E.
    + apply re_exec_shorter in E. simpl in E. f_equal. apply IH; lia.
    + f_equal. apply IH; lia.
Qed.

Lemma tokenize_nil : tokenize "" = [].
Proof. done. Qed.

Lemma tokenize_token s key filter rest :
  re_exec s = Some (key, filter, rest) -> tokenize s = Token key filter :: tokenize rest.
Proof.
  intros E. pose proof (re_exec_shorter _ _ _ _ E) as Hlen.
  unfold tokenize. destruct s as [|c s]; [done|].
  cbn [String.length tokenize_fuel]. rewrite E. f_equal.
  apply tokenize_fuel_irrelevant; simpl in Hlen; lia.
Qed.

Lemma tokenize_text c s :
  re_exec (String c s) = None -> tokenize (String c s) = Text c :: tokenize s.
Proof. intros E. unfold tokenize. cbn [String.length tokenize_fuel]. by rewrite E. Qed.

Lemma replace_tokens_token f s key filter rest :
  re_exec s = Some (key, filter, rest) ->
  replace_tokens f s = f key filter +:+ replace_tokens f rest.
Proof. intros E. unfold replace_tokens. by rewrite (tokenize_token _ _ _ _ E). Qed.

Lemma replace_tokens_text f c s :
  re_exec (String c s) = None ->
  replace_tokens f (String c s) = String c (replace_tokens f s).
Proof. intros E. unfold replace_tokens. by rewrite (tokenize_text _ _ E). Qed.

Lemma tokenize_brace_free s :
  brace_free s -> tokenize s = Text <$> list_ascii_of_string s.
Proof.
  unfold brace_free. induction s as [|c s IH]; simpl; intros Hs; [done|].
  inversion Hs; subst. rewrite tokenize_text by by apply re_exec_brace.
  simpl. f_equal. by apply IH.
Qed.

Lemma concat_texts f s :
  concat_strings (piece_out f <$> (Text <$> list_ascii_of_string s)) = s.
Proof. induction s as [|c s IH]; simpl; [done | f_equal; apply IH]. Qed.

(** A template with no placeholder renders to itself. *)
Lemma replace_tokens_no_token f s :
  token_keys s = [] -> replace_tokens f s = s.
Proof.
  unfold token_keys, replace_tokens.
  remember (String.length s) as n eqn:Hn.
  revert s Hn. induction n as [n IH] using lt_wf_ind. intros s Hn.
  destruct s as [|c s]; [done|].
  destruct (re_exec (String c s)) as [[[k flt] r]|] eqn:E.
  - rewrite (tokenize_token _ _ _ _ E). done.
  - rewrite (tokenize_text _ _ E). simpl. intros Hk.
    rewrite (IH (String.length s)); simpl in Hn; [done | lia | done | done].
Qed.

Lemma brace_free_no_token s : brace_free s -> token_keys s = [].
Proof.
  intros Hs. unfold token_keys. rewrite tokenize_brace_free by done.
  induction (list_ascii_of_string s) as [|c l IH]; simpl; done.
Qed.

Lemma brace_free_app a b : brace_free a -> brace_free b -> brace_free (a +:+ b).
Proof.
  unfold brace_free. induction a as [|c a IH]; simpl; [done|].
  intros Ha Hb. inversion Ha; subst. constructor; [done | by apply IH].
Qed.

(** ** Single placeholders *)

Lemma tokenize_placeholder key :
  valid_key key -> tokenize ("{{" +:+ key +:+ "}}") = [Token key None].
Proof.
  intros [Hne Hw]. rewrite (tokenize_token _ key None ""); [done|].
  apply re_exec_complete. exists "", "". split_and!; try done.
Qed.

Lemma tokenize_placeholder_filter key f :
  valid_key key -> valid_filter f ->
  tokenize ("{{" +:+ key +:+ "|" +:+ f +:+ "}}") = [Token key (Some f)].
Proof.
  intros [Hne Hw] [Hf Ha]. rewrite (tokenize_token _ key (Some f) ""); [done|].
  apply re_exec_complete. exists "", "". split_and!; try done.
  by intros ? [= <-].
Qed.

(** ** Property lookup *)

Lemma has_property_false o key :
  has_property o key = false -> get_property o key = JUndefined.
Proof.
  unfold has_property, get_property. intros [H1 H2]%orb_false_elim.
  apply bool_decide_eq_false in H1, H2.
  destruct (o !! key); [by destruct H1|].
  destruct (Object_prototype !! key); [by destruct H2 | done].
Qed.

Lemma get_property_own o key v : o !! key = Some v -> get_property o key = v.
Proof. unfold get_property. by intros ->. Qed.

(** A key that is neither an own property nor a member of
    [Object.prototype] reads as [undefined]. *)
Lemma get_property_absent o key :
  o !! key = None -> Object_prototype !! key = None -> get_property o key = JUndefined.
Proof. unfold get_property. by intros -> ->. Qed.

(** ** Rendering *)

Section EngineFacts.
Context `{DateEnv}.

Lemma render_pieces t data :
  render (JStr t) data = replace_tokens (render_token data) t.
Proof. unfold render. by destruct t. Qed.

(** The raw value seen by the callback decides alone. *)
Lemma render_token_raw o key filter :
  render_token (Some o) key filter =
    let raw := get_property o key in
    if negb (truthy raw) then ""
    else if startsWith key "date_" then
      if bool_decide (filter = Some "shortdate") then to_string (formatDate raw "short")
      else if bool_decide (filter = Some "longdate") then to_string (formatDate raw "long")
      else to_string raw
    else to_string raw.
Proof.
  unfold render_token. destruct (has_property o key) eqn:E; [done|].
  by rewrite (has_property_false _ _ E).
Qed.

Lemma render_token_no_data key filter : render_token None key filter = "".
Proof. done. Qed.

(** A token whose key reads as a falsy value is replaced by the empty
    string. *)
Lemma render_token_falsy o key filter :
  truthy (get_property o key) = false -> render_token (Some o) key filter = "".
Proof. intros Hf. rewrite render_token_raw. simpl. by rewrite Hf. Qed.

Lemma render_placeholder key data :
  valid_key key -> render (JStr ("{{" +:+ key +:+ "}}")) data = render_token data key None.
Proof.
  intros Hk. rewrite render_pieces. unfold replace_tokens.
  rewrite tokenize_placeholder by done. simpl. apply str_app_nil_r.
Qed.

Lemma render_placeholder_filter key f data :
  valid_key key -> valid_filter f ->
  render (JStr ("{{" +:+ key +:+ "|" +:+ f +:+ "}}")) data = render_token data key (Some f).
Proof.
  intros Hk Hf. rewrite render_pieces. unfold replace_tokens.
  rewrite tokenize_placeholder_filter by done. simpl. apply str_app_nil_r.
Qed.

Lemma formatDate_truthy input style :
  truthy input = true ->
  formatDate input style =
    match date_of_input input with
    | None => input
    | Some d =>
        JStr (if String.eqb style "short"
              then Intl_format {| year := TwoDigit; month := Short; day := Numeric |} d
              else Intl_format {| year := Numeric; month := Long; day := Numeric |} d)
    end.
Proof. unfold formatDate. by intros ->. Qed.

(** C1 (evaluation at the failing input). The key [constructor] has no
    entry in the empty mapping, and [render] substitutes the text of the
    inherited [Object] function for its token instead of the empty
    string. *)
Theorem render_inherited_key :
  render (JStr "{{constructor}}") (Some ∅)
  = "function Object() { [native code] }".
Proof. by vm_compute. Qed.

(** What of C1 holds: a key with no own entry that is not a member of
    [Object.prototype], or whose entry is falsy, renders as the empty
    string, and a plain key with a string entry renders as that string. *)
Lemma render_blank_outside_prototype key o :
  valid_key key -> Object_prototype !! key = None ->
  (o !! key = None \/ exists v, o !! key = Some v /\ truthy v = false) ->
  render (JStr ("{{" +:+ key +:+ "}}")) (Some o) = "".
Proof.
  intros Hk Hp Ho. rewrite render_placeholder by done.
  apply render_token_falsy. destruct Ho as [Ho | (v & Ho & Hv)].
  - by rewrite get_property_absent.
  - by rewrite (get_property_own _ _ _ Ho).
Qed.

Lemma render_plain_key key (v : string) :
  valid_key key -> startsWith key "date_" = false ->
  render (JStr ("{{" +:+ key +:+ "}}")) (Some {[ key := JStr v ]}) = v.
Proof.
  intros Hk Hd. rewrite render_placeholder by done. rewrite render_token_raw.
  rewrite (get_property_own _ _ (JStr v)) by apply lookup_singleton_eq.
  simpl. rewrite Hd. by destruct v.
Qed.
End EngineFacts.

(** ** Dates *)

Lemma length_4 (s : string) :
  String.length s = 4%nat -> exists a b c d, s = String a (String b (String c (String d ""))).
Proof. destruct s as [|a [|b [|c [|d [|e s]]]]]; try done. eauto. Qed.

Lemma length_2 (s : string) :
  String.length s = 2%nat -> exists a b, s = String a (String b "").
Proof. destruct s as [|a [|b [|c s]]]; try done. eauto. Qed.

Lemma is_dash_spec c : is_dash c = true <-> c = "-"%char.
Proof.
  split; [|by intros ->].
  destruct c as [[] [] [] [] [] [] [] []]; by vm_compute.
Qed.

(** The test of [formatDate] accepts exactly the strings YYYY-MM-DD. *)
Lemma ymd_pattern_spec s : match_classes ymd_pattern s = true <-> is_ymd s.
Proof.
  split.
  - destruct s as [|y1 [|y2 [|y3 [|y4 [|h1 [|m1 [|m2 [|h2 [|d1 [|d2 [|x s]]]]]]]]]]];
      simpl; rewrite ?andb_false_r; try done.
    rewrite andb_true_r, !andb_true_iff, !is_dash_spec.
    intros (Hy1 & Hy2 & Hy3 & Hy4 & -> & Hm1 & Hm2 & -> & Hd1 & Hd2).
    exists (String y1 (String y2 (String y3 (String y4 "")))),
           (String m1 (String m2 "")), (String d1 (String d2 "")).
    unfold all_chars; simpl. by rewrite Hy1, Hy2, Hy3, Hy4, Hm1, Hm2, Hd1, Hd2.
  - intros (y & m & d & -> & Hy & Hm & Hd & Ay & Am & Ad).
    apply length_4 in Hy as (y1 & y2 & y3 & y4 & ->).
    apply length_2 in Hm as (m1 & m2 & ->). apply length_2 in Hd as (d1 & d2 & ->).
    unfold all_chars in *; simpl in *.
    repeat match goal with H : _ && _ = true |- _ => apply andb_prop in H as [? ?] end.
    by repeat match goal with H : is_digit _ = true |- _ => rewrite H; clear H end.
Qed.

Section DateFacts.
Context `{DateEnv}.

(** Which string reaches the parser (used by C8). [formatDate] on a
    non-empty string [s]: when [s] is exactly
    YYYY-MM-DD the date formatted is the one denoted by [s] followed by
    "T12:00:00", that is noon, local time, of that day; any other string is
    handed to the general parser as it is; and when the parser yields no
    valid date the input string comes back unchanged. *)
Theorem formatDate_parsing (s style : string) :
  s <> "" ->
  let formatted d :=
    JStr (if String.eqb style "short" then Intl_format short_date d
          else Intl_format long_date d) in
  (is_ymd s ->
     date_of_input (JStr s) = Date_parse (s +:+ "T12:00:00") /\
     forall d, Date_parse (s +:+ "T12:00:00") = Some d ->
               formatDate (JStr s) style = formatted d) /\
  (~ is_ymd s ->
     date_of_input (JStr s) = Date_parse s /\
     forall d, Date_parse s = Some d -> formatDate (JStr s) style = formatted d) /\
  (date_of_input (JStr s) = None -> formatDate (JStr s) style = JStr s).
Proof.
  intros Hs formatted.
  assert (Ht : truthy (JStr s) = true) by (simpl; by rewrite str_eqb_false).
  rewrite formatDate_truthy by done. unfold date_of_input. simpl to_string.
  split_and!.
  - intros Hy%ymd_pattern_spec. rewrite Hy. split; [done|]. by intros d ->.
  - intros Hy. destruct (match_classes ymd_pattern s) eqn:E.
    { by apply ymd_pattern_spec in E. }
    change (Date_new (JStr s)) with (Date_parse s).
    split; [done|]. by intros d ->.
  - by intros ->.
Qed.

(** The callback of [render] (used by C2). A matched token whose key
    reads as a non-empty (truthy) value
    [raw]: a key that does not begin with "date_" yields [String(raw)]
    whatever the filter; a key that begins with "date_" yields the date
    formatted with a 2-digit year, short month and numeric day under
    "shortdate", with a numeric year, long month and numeric day under
    "longdate" (the raw value when it denotes no date), and [String(raw)]
    without a filter or under any other filter name. *)
Theorem render_token_value (o : gmap string value) (key : string)
    (filter : option string) :
  let raw := get_property o key in
  truthy raw = true ->
  (startsWith key "date_" = false ->
     render_token (Some o) key filter = to_string raw) /\
  (startsWith key "date_" = true ->
     (filter = Some "shortdate" ->
        render_token (Some o) key filter =
          match date_of_input raw with
          | Some d => Intl_format {| year := TwoDigit; month := Short; day := Numeric |} d
          | None => to_string raw
          end) /\
     (filter = Some "longdate" ->
        render_token (Some o) key filter =
          match date_of_input raw with
          | Some d => Intl_format {| year := Numeric; month := Long; day := Numeric |} d
          | None => to_string raw
          end) /\
     (filter <> Some "shortdate" -> filter <> Some "longdate" ->
        render_token (Some o) key filter = to_string raw)).
Proof.
  intros raw Ht. rewrite render_token_raw. fold raw. cbv zeta. rewrite Ht. simpl negb.
  cbv iota. split; [by intros -> |]. intros ->. split_and!.
  - intros ->. rewrite bool_decide_eq_true_2 by done.
    rewrite formatDate_truthy by done. by destruct (date_of_input raw).
  - intros ->. rewrite bool_decide_eq_false_2 by done.
    rewrite bool_decide_eq_true_2 by done.
    rewrite formatDate_truthy by done. by destruct (date_of_input raw).
  - intros H1 H2. by rewrite !bool_decide_eq_false_2 by done.
Qed.

(** C10. Keys and filter names are compared as written: against a mapping
    whose only key is [first_name], the placeholder FIRST_NAME is replaced
    by the empty string; and the filter LONGDATE formats nothing, the
    non-empty value of [date_1] is substituted as it is. *)
Theorem render_case_sensitive :
  (forall v, render (JStr "{{FIRST_NAME}}") (Some {[ "first_name" := v ]}) = "") /\
  (forall v, truthy v = true ->
     render (JStr "{{date_1|LONGDATE}}") (Some {[ "date_1" := v ]}) = to_string v).
Proof.
  split.
  - intros v. rewrite (render_placeholder "FIRST_NAME") by done.
    apply render_token_falsy. by rewrite get_property_absent.
  - intros v Hv. rewrite (render_placeholder_filter "date_1" "LONGDATE") by done.
    rewrite render_token_raw.
    rewrite (get_property_own _ _ v) by apply lookup_singleton_eq.
    cbv zeta. by rewrite Hv.
Qed.
End DateFacts.

(** ** Rendering twice *)

Lemma brace_free_concat f (l : list piece) :
  (forall c, Text c ∈ l -> c <> "{"%char) ->
  (forall key filter, Token key filter ∈ l -> brace_free (f key filter)) ->
  brace_free (concat_strings (piece_out f <$> l)).
Proof.
  induction l as [|p l IH]; intros Hc Ht; [by constructor|].
  change (brace_free (piece_out f p +:+ concat_strings (piece_out f <$> l))).
  apply brace_free_app.
  - destruct p as [c | key filter]; simpl.
    + constructor; [|constructor]. apply Hc. by left.
    + apply Ht. by left.
  - apply IH; intros; [apply Hc | apply Ht]; by right.
Qed.

Lemma no_syntax_in_empty : ~ holds_placeholder_syntax "".
Proof.
  intros (a & b & c & E). apply (f_equal String.length) in E.
  rewrite !str_length_app in E. simpl in E. lia.
Qed.

Section Idempotence.
Context `{DateEnv}.

(** C9 (amended). Rendering the output again changes nothing whenever the
    output holds no placeholder; and the output holds none when neither
    the text of the template outside its placeholders nor any substituted
    value contains an opening brace. *)
Theorem render_idempotent (t : string) (data : option (gmap string value)) :
  (token_keys (render (JStr t) data) = [] ->
     render (JStr (render (JStr t) data)) data = render (JStr t) data) /\
  ((forall c, Text c ∈ tokenize t -> c <> "{"%char) ->
   (forall key filter, Token key filter ∈ tokenize t ->
                       brace_free (render_token data key filter)) ->
     token_keys (render (JStr t) data) = []).
Proof.
  split.
  - intros Hk. rewrite (render_pieces (render _ _)). by apply replace_tokens_no_token.
  - intros Hc Ht. apply brace_free_no_token. rewrite render_pieces.
    by apply brace_free_concat.
Qed.
End Idempotence.

(** C9 (counterexample). In "{{{{a}}b}}" the only placeholder is [a]; with
    no data its value is the empty string, which holds no placeholder
    syntax. The output "{{b}}" is a placeholder, and rendering it again
    yields the empty string. *)
Lemma render_twice_differs :
  let t := "{{{{a}}b}}" in
  let data : option (gmap string value) := Some ∅ in
  (forall key filter, Token key filter ∈ tokenize t ->
     ~ holds_placeholder_syntax (@render_token EnUS.env data key filter)) /\
  @render EnUS.env (JStr t) data = "{{b}}" /\
  @render EnUS.env (JStr (@render EnUS.env (JStr t) data)) data = "" /\
  @render EnUS.env (JStr (@render EnUS.env (JStr t) data)) data
    <> @render EnUS.env (JStr t) data.
Proof.
  intros t data. split_and!; [| by vm_compute ..].
  intros key filter Hin.
  assert (Ht : tokenize t
               = [Text "{"; Text "{"; Token "a" None; Text "b"; Text "}"; Text "}"])
    by by vm_compute.
  rewrite Ht in Hin. set_unfold in Hin.
  destruct Hin as [?|[?|[Hin|[?|[?|[?|[]]]]]]]; try done.
  injection Hin as -> ->. apply no_syntax_in_empty.
Qed.

(** ** Missing fields *)

Lemma set_add_elem found key x : x ∈ set_add found key <-> x ∈ found \/ x = key.
Proof.
  unfold set_add. case_bool_decide; set_solver.
Qed.

Lemma set_add_NoDup found key : NoDup found -> NoDup (set_add found key).
Proof.
  unfold set_add. case_bool_decide; [done|]. intros Hn.
  apply NoDup_app. split_and!; [done | set_solver | apply NoDup_singleton].
Qed.

Lemma foldl_set_add_elem keys found x :
  x ∈ foldl set_add found keys <-> x ∈ found \/ x ∈ keys.
Proof.
  revert found. induction keys as [|k keys IH]; intros found; simpl.
  - set_solver.
  - rewrite IH, set_add_elem. set_solver.
Qed.

Lemma foldl_set_add_NoDup keys found :
  NoDup found -> NoDup (foldl set_add found keys).
Proof.
  revert found. induction keys as [|k keys IH]; intros found Hn; simpl; [done|].
  by apply IH, set_add_NoDup.
Qed.

Lemma filter_twice (P Q : string -> Prop) `{!forall x, Decision (P x)}
    `{!forall x, Decision (Q x)} (l : list string) :
  filter P (filter Q l) = filter (fun x => P x /\ Q x) l.
Proof.
  induction l as [|x l IH]; [done|].
  rewrite !filter_cons. repeat case_decide; rewrite ?filter_cons;
    repeat case_decide; try rewrite IH; try done; naive_solver.
Qed.

Lemma filter_agree (P Q : string -> Prop) `{!forall x, Decision (P x)}
    `{!forall x, Decision (Q x)} (l : list string) :
  (forall x, P x <-> Q x) -> filter P l = filter Q l.
Proof.
  intros HPQ. induction l as [|x l IH]; [done|].
  rewrite !filter_cons, IH. repeat case_decide; try done; naive_solver.
Qed.

(** The [Set] filled by the scan lists the keys in order of first
    appearance. *)
Lemma foldl_set_add_order keys found :
  foldl set_add found keys
  = found ++ filter (fun x => x ∉ found) (first_occurrences keys).
Proof.
  revert found. induction keys as [|k keys IH]; intros found.
  - simpl. by rewrite app_nil_r.
  - cbn [foldl first_occurrences]. rewrite IH, filter_cons. unfold set_add.
    case_bool_decide as Hk.
    + rewrite decide_False by naive_solver. f_equal.
      rewrite filter_twice. apply filter_agree. intros x. naive_solver.
    + rewrite decide_True by done. rewrite <- app_assoc. simpl. do 2 f_equal.
      rewrite filter_twice. apply filter_agree. intros x.
      rewrite elem_of_app, list_elem_of_singleton. naive_solver.
Qed.

Lemma first_occurrences_found keys :
  foldl set_add [] keys = first_occurrences keys.
Proof.
  rewrite foldl_set_add_order. simpl.
  induction (first_occurrences keys) as [|x l IH]; [done|].
  rewrite filter_cons, decide_True by apply not_elem_of_nil. by rewrite IH.
Qed.

(** What [missingFields] returns on a non-empty template: in order of
    first appearance and without repetition, the keys of its placeholders
    whose lookup in the data (own or inherited) is undefined, null or
    blank. *)
Lemma missingFields_spec (t : string) (data : option (gmap string value)) :
  t <> "" ->
  missingFields (JStr t) data
  = filter (fun key => is_missing (opt_get data key) = true)
           (first_occurrences (token_keys t)) /\
  NoDup (missingFields (JStr t) data) /\
  forall key, key ∈ missingFields (JStr t) data <->
              key ∈ token_keys t /\ is_missing (opt_get data key) = true.
Proof.
  intros Ht. unfold missingFields. simpl. rewrite str_eqb_false by done. simpl.
  split_and!.
  - by rewrite first_occurrences_found.
  - apply NoDup_filter, foldl_set_add_NoDup, NoDup_nil_2.
  - intros key. rewrite list_elem_of_filter, foldl_set_add_elem. set_solver.
Qed.

(** The example of the specification. *)
Lemma missingFields_example :
  missingFields (JStr "Hi {{first_name}}, re {{company_name}}")
                (Some {[ "first_name" := JStr "Sam" ]})
  = ["company_name"].
Proof. by vm_compute. Qed.

(** C3 (evaluation at the failing input). The key [constructor] has no
    value in the empty mapping, yet [missingFields] does not report it: the
    lookup finds the inherited [Object] function. *)
Theorem missingFields_inherited_key :
  token_keys "{{constructor}}" = ["constructor"] /\
  (∅ : gmap string value) !! "constructor" = None /\
  missingFields (JStr "{{constructor}}") (Some ∅) = [].
Proof. split_and!; by vm_compute. Qed.

(** ** The store *)

Lemma migrate_fixed s : version s <> 0 -> migrate s = s.
Proof.
  intros Hv. destruct s as [v fs ts st]. unfold migrate; simpl in *.
  by rewrite (proj2 (Z.eqb_neq v 0) Hv).
Qed.

Lemma migrate_version s : version (migrate s) <> 0.
Proof. unfold migrate; simpl. by destruct (Z.eqb_spec (version s) 0). Qed.

Lemma view_version w : version (view w) <> 0.
Proof.
  destruct w as [[s|] c u]; [apply migrate_version | done].
Qed.

(** Reading back a store that was saved with the version it was read with. *)
Lemma view_saved w fs ts st c u :
  view {| localStorage :=
            Some {| version := version (view w); folders := fs;
                    templates := ts; settings := st |};
          clock_reads := c; uid_draws := u |}
  = {| version := version (view w); folders := fs; templates := ts; settings := st |}.
Proof. apply migrate_fixed, view_version. Qed.

(** An operation that reads the store and stops leaves it as it reads. *)
Lemma view_after_read w : view (exec getStore w) = view w.
Proof. destruct w as [[s|] c u]; [done | done]. Qed.

Lemma getStore_result w : getStore w = (view w, exec getStore w).
Proof. unfold view, result, exec. by destruct (getStore w). Qed.

Lemma exec_getStore w :
  exec getStore w = {| localStorage := Some (default initial (localStorage w));
                       clock_reads := clock_reads w; uid_draws := uid_draws w |}.
Proof. by destruct w as [[s|] c u]. Qed.

Lemma delete_forgets_id {A} (key : A -> string) (l : list A) (idx : nat) (x : A) :
  NoDup (key <$> l) -> l !! idx = Some x -> key x ∉ key <$> delete idx l.
Proof.
  intros Hn Hx [y [Hy Hin]]%list_elem_of_fmap.
  apply list_elem_of_lookup in Hin as [j Hj].
  assert (Hix : (key <$> l) !! idx = Some (key x)) by by rewrite list_lookup_fmap, Hx.
  destruct (decide (j < idx)%nat) as [Hlt|Hge].
  - rewrite list_lookup_delete_lt in Hj by done.
    assert (Hjy : (key <$> l) !! j = Some (key x)) by by rewrite list_lookup_fmap, Hj, Hy.
    pose proof (NoDup_lookup _ _ _ _ Hn Hix Hjy). lia.
  - rewrite list_lookup_delete_ge in Hj by lia.
    assert (Hjy : (key <$> l) !! S j = Some (key x)) by by rewrite list_lookup_fmap, Hj, Hy.
    pose proof (NoDup_lookup _ _ _ _ Hn Hix Hjy). lia.
Qed.

Lemma find_by_id_None {A} (key : A -> string) (l : list A) (id : string) :
  list_find (fun x => key x = id) l = None <-> id ∉ key <$> l.
Proof.
  rewrite list_find_None, Forall_forall. split.
  - intros Hl [x [-> Hx]]%list_elem_of_fmap. by apply (Hl x).
  - intros Hn x Hx <-. apply Hn, list_elem_of_fmap. eauto.
Qed.

Lemma find_by_id_Some {A} (key : A -> string) (l : list A) (id : string) :
  id ∈ key <$> l -> exists i x, list_find (fun x => key x = id) l = Some (i, x).
Proof.
  intros Hin. destruct (list_find _ l) as [[i x]|] eqn:E; [eauto|].
  by apply find_by_id_None in E.
Qed.

Lemma unfile_folderId id t : Template.folderId (unfile id t) <> Some id.
Proof. unfold unfile. by case_bool_decide. Qed.

Lemma unfile_keeps id t :
  Template.id (unfile id t) = Template.id t /\
  Template.name (unfile id t) = Template.name t /\
  Template.subject (unfile id t) = Template.subject t /\
  Template.content (unfile id t) = Template.content t /\
  Template.createdAt (unfile id t) = Template.createdAt t /\
  Template.updatedAt (unfile id t) = Template.updatedAt t /\
  (Template.folderId t <> Some id -> unfile id t = t).
Proof. unfold unfile. by case_bool_decide. Qed.

Lemma view_Some s c u :
  view {| localStorage := Some s; clock_reads := c; uid_draws := u |} = migrate s.
Proof. done. Qed.

Lemma saveStore_run next w :
  saveStore next w
  = (next, {| localStorage := Some next; clock_reads := clock_reads w;
              uid_draws := uid_draws w |}).
Proof. done. Qed.

Section StoreFacts.
Variable nowISO_at : nat -> string.
Variable uid_at : nat -> string.

Lemma deleteFolder_run id mode w :
  deleteFolder id mode w =
    match list_find (fun x => Folder.id x = id) (folders (view w)) with
    | None => (false, exec getStore w)
    | Some (idx, _) =>
        (true,
         {| localStorage :=
              Some {| version := version (view w);
                      folders := delete idx (folders (view w));
                      templates :=
                        if String.eqb mode "deleteTemplates" then
                          filter (fun t => Template.folderId t <> Some id)
                                 (templates (view w))
                        else unfile id <$> templates (view w);
                      settings := settings (view w) |};
            clock_reads := clock_reads w; uid_draws := uid_draws w |})
    end.
Proof.
  unfold deleteFolder, bind. rewrite getStore_result.
  destruct (list_find _ _) as [[idx f]|]; [|done].
  rewrite saveStore_run, exec_getStore. done.
Qed.

(** C4. [deleteFolder]: with an unknown id it returns false and the store
    reads as before. With the id of a folder it returns true and removes
    that folder from the list (no folder with that id remains when ids are
    unique); in mode "keep" every template is kept, those of the folder
    with [folderId] null and the others unchanged; in mode
    "deleteTemplates" exactly the templates of the folder are removed. *)
Theorem deleteFolder_spec (id mode : string) (w : World) :
  let store := view w in
  let w' := exec (deleteFolder id mode) w in
  (id ∉ Folder.id <$> folders store ->
     result (deleteFolder id mode) w = false /\ view w' = store) /\
  (id ∈ Folder.id <$> folders store ->
     result (deleteFolder id mode) w = true /\
     (exists idx f, folders store !! idx = Some f /\ Folder.id f = id /\
                    folders (view w') = delete idx (folders store)) /\
     (NoDup (Folder.id <$> folders store) -> id ∉ Folder.id <$> folders (view w')) /\
     (mode = "keep" ->
        templates (view w') = unfile id <$> templates store /\
        length (templates (view w')) = length (templates store) /\
        Forall (fun t => Template.folderId t <> Some id) (templates (view w'))) /\
     (mode = "deleteTemplates" ->
        templates (view w')
        = filter (fun t => Template.folderId t <> Some id) (templates store) /\
        forall t, t ∈ templates (view w') <->
                  t ∈ templates store /\ Template.folderId t <> Some id)).
Proof.
  intros store w'. subst store w'. unfold exec, result.
  rewrite deleteFolder_run. split.
  - intros Hn%find_by_id_None. rewrite Hn. cbn [fst snd]. split; [done|].
    apply view_after_read.
  - intros (idx & f & Hf)%find_by_id_Some. rewrite Hf. cbn [fst snd].
    apply list_find_Some in Hf as (Hidx & Hid & _).
    rewrite view_saved. cbn [folders templates].
    split_and!; [done | by eauto | | |].
    + intros Hnd. rewrite <- Hid. by apply delete_forgets_id.
    + intros ->. rewrite str_eqb_false by done.
      split_and!; [done | by rewrite length_fmap |].
      apply Forall_fmap, Forall_forall. intros t _. apply unfile_folderId.
    + intros ->. rewrite String.eqb_refl. split; [done|]. intros t.
      by rewrite list_elem_of_filter, (comm and).
Qed.

Lemma updateTemplate_run id patch w :
  updateTemplate nowISO_at id patch w =
    match list_find (fun x => Template.id x = id) (templates (view w)) with
    | None => (false, exec getStore w)
    | Some (i, t) =>
        (true,
         {| localStorage :=
              Some {| version := version (view w);
                      folders := folders (view w);
                      templates :=
                        <[i := Template.set_updatedAt (nowISO_at (clock_reads w))
                                 (apply_patch patch t)]> (templates (view w));
                      settings := settings (view w) |};
            clock_reads := S (clock_reads w); uid_draws := uid_draws w |})
    end.
Proof.
  unfold updateTemplate, bind. rewrite getStore_result.
  destruct (list_find _ _) as [[i t]|]; [|done].
  unfold nowISO. rewrite saveStore_run, exec_getStore. done.
Qed.

Lemma apply_patch_fields patch t :
  let t' := apply_patch patch t in
  Template.id t' = Template.id t /\
  Template.createdAt t' = Template.createdAt t /\
  Template.updatedAt t' = Template.updatedAt t /\
  Template.name t' =
    (if decide (Patch.name patch = JUndefined) then Template.name t
     else if decide (trim (to_string (Patch.name patch)) = "") then Template.name t
     else trim (to_string (Patch.name patch))) /\
  Template.subject t' =
    (if decide (Patch.subject patch = JUndefined) then Template.subject t
     else trim (to_string (Patch.subject patch))) /\
  Template.content t' =
    (if decide (Patch.content patch = JUndefined) then Template.content t
     else to_string (Patch.content patch)) /\
  Template.folderId t' = default (Template.folderId t) (Patch.folderId patch).
Proof.
  destruct patch as [n s c f]. unfold apply_patch, str_or. simpl.
  destruct (String.eqb_spec (trim (to_string n)) "") as [E|E];
    repeat case_bool_decide; repeat case_decide; destruct f; simpl; try done.
Qed.

(** C6. [updateTemplate]: with an unknown id it returns false and the
    store reads as before. With the id of a template it returns true and
    rewrites that template in place: the fields absent from the patch keep
    their value, a name that trims to the empty string leaves the name as
    it was, and [updatedAt] becomes the current reading of the clock
    whatever the patch holds; with the patch {name: "  "} nothing but
    [updatedAt] changes. *)
Theorem updateTemplate_spec (id : string) (patch : Patch.t) (w : World) :
  let store := view w in
  let w' := exec (updateTemplate nowISO_at id patch) w in
  let now := nowISO_at (clock_reads w) in
  (id ∉ Template.id <$> templates store ->
     result (updateTemplate nowISO_at id patch) w = false /\ view w' = store) /\
  (id ∈ Template.id <$> templates store ->
     result (updateTemplate nowISO_at id patch) w = true /\
     folders (view w') = folders store /\
     exists i t t',
       templates store !! i = Some t /\ Template.id t = id /\
       templates (view w') = <[i := t']> (templates store) /\
       Template.id t' = id /\
       Template.createdAt t' = Template.createdAt t /\
       Template.updatedAt t' = now /\
       Template.name t' =
         (if decide (Patch.name patch = JUndefined) then Template.name t
          else if decide (trim (to_string (Patch.name patch)) = "") then Template.name t
          else trim (to_string (Patch.name patch))) /\
       Template.subject t' =
         (if decide (Patch.subject patch = JUndefined) then Template.subject t
          else trim (to_string (Patch.subject patch))) /\
       Template.content t' =
         (if decide (Patch.content patch = JUndefined) then Template.content t
          else to_string (Patch.content patch)) /\
       Template.folderId t' = default (Template.folderId t) (Patch.folderId patch) /\
       (patch = Patch.mk (JStr "  ") JUndefined JUndefined None ->
          t' = Template.set_updatedAt now t)).
Proof.
  intros store w' now. subst store w' now. unfold exec, result.
  rewrite updateTemplate_run. split.
  - intros Hn%find_by_id_None. rewrite Hn. cbn [fst snd]. split; [done|].
    apply view_after_read.
  - intros (i & t & Hf)%find_by_id_Some. rewrite Hf. cbn [fst snd].
    apply list_find_Some in Hf as (Hi & Hid & _).
    rewrite view_saved. cbn [folders templates].
    split_and!; [done | done |].
    exists i, t, (Template.set_updatedAt (nowISO_at (clock_reads w)) (apply_patch patch t)).
    destruct (apply_patch_fields patch t) as (Pid & Pc & _ & Pn & Ps & Pb & Pf).
    split_and!; try done.
    + simpl. congruence.
    + intros ->. by destruct t.
Qed.

(** *** Folder operations and [updatedAt] *)

Lemma moveTemplatesToFolder_run ids f w :
  moveTemplatesToFolder ids f w =
    (true,
     {| localStorage :=
          Some {| version := version (view w);
                  folders := folders (view w);
                  templates :=
                    (fun t => if bool_decide (Template.id t ∈ ids)
                              then Template.set_folderId (or_null f) t else t)
                      <$> templates (view w);
                  settings := settings (view w) |};
        clock_reads := clock_reads w; uid_draws := uid_draws w |}).
Proof.
  unfold moveTemplatesToFolder, bind. rewrite getStore_result.
  rewrite saveStore_run, exec_getStore. done.
Qed.

(** Neither folder operation touches a timestamp or reads the clock. *)
Lemma folder_operations_leave_updatedAt ids f id w :
  let moved := exec (moveTemplatesToFolder ids f) w in
  let unfiled := exec (deleteFolder id "keep") w in
  Template.updatedAt <$> templates (view moved) = Template.updatedAt <$> templates (view w) /\
  clock_reads moved = clock_reads w /\
  (id ∈ Folder.id <$> folders (view w) ->
     Template.updatedAt <$> templates (view unfiled)
     = Template.updatedAt <$> templates (view w) /\
     clock_reads unfiled = clock_reads w).
Proof.
  intros moved unfiled. subst moved unfiled. unfold exec.
  rewrite moveTemplatesToFolder_run, deleteFolder_run. cbn [snd].
  rewrite view_saved. cbn [templates clock_reads]. split_and!; [|done|].
  - rewrite <- list_fmap_compose. apply list_fmap_ext. intros i t _. simpl.
    by case_bool_decide.
  - intros (idx & x & Hf)%find_by_id_Some. rewrite Hf. cbn [snd].
    rewrite view_saved. cbn [templates clock_reads]. split; [|done].
    rewrite str_eqb_false by done.
    rewrite <- list_fmap_compose. apply list_fmap_ext. intros i t _. simpl.
    apply unfile_keeps.
Qed.

(** C7 (evaluation at the failing input). A template last updated on
    2024-01-01 is moved to another folder, or unfiled by the deletion of
    its folder in mode "keep": its [folderId] changes and its [updatedAt]
    is still the old timestamp, whatever the clock reads. *)
Theorem folder_operations_stale_updatedAt :
  let old := "2024-01-01T00:00:00.000Z" in
  let w :=
    {| localStorage :=
         Some {| version := 1;
                 folders := [Folder.mk "f1" "Leads" old; Folder.mk "f2" "Clients" old];
                 templates := [Template.mk "t1" "Offer" "" "Hi {{first_name}}"
                                 (Some "f1") old old];
                 settings := {| sampleSeeded := JBool true |} |};
       clock_reads := 0; uid_draws := 0 |} in
  templates (view (exec (moveTemplatesToFolder ["t1"] (Some "f2")) w))
    = [Template.mk "t1" "Offer" "" "Hi {{first_name}}" (Some "f2") old old] /\
  templates (view (exec (deleteFolder "f1" "keep") w))
    = [Template.mk "t1" "Offer" "" "Hi {{first_name}}" None old old] /\
  (let patch := Patch.mk JUndefined JUndefined JUndefined (Some (Some "f2")) in
   templates (view (exec (updateTemplate nowISO_at "t1" patch) w))
    = [Template.mk "t1" "Offer" "" "Hi {{first_name}}" (Some "f2") old (nowISO_at 0)]).
Proof. by vm_compute. Qed.

(** *** First-run seeding *)

Lemma seeded_stored w : seeded w -> exists s, localStorage w = Some s.
Proof. destruct w as [[s|] c u]; [eauto | done]. Qed.

Lemma seeded_saved s c u :
  seeded {| localStorage := Some s; clock_reads := c; uid_draws := u |}
  <-> sampleSeeded (settings s) = JBool true.
Proof. done. Qed.

Lemma seeded_after_read w : seeded (exec getStore w) <-> seeded w.
Proof. unfold seeded. by rewrite view_after_read. Qed.

Lemma ensureSampleTemplate_run w :
  ensureSampleTemplate nowISO_at uid_at w =
    if bool_decide (sampleSeeded (settings (view w)) = JBool true)
    then (tt, exec getStore w)
    else if (length (templates (view w)) =? 0)%nat then
      (tt,
       {| localStorage :=
            Some {| version := version (view w); folders := folders (view w);
                    templates :=
                      templates (view w) ++
                      [Template.mk (uid_at (uid_draws w)) "Sample — Quick Follow-up"
                         "Quick follow-up with {{company_name}}" sample_content None
                         (nowISO_at (clock_reads w)) (nowISO_at (S (clock_reads w)))];
                    settings := {| sampleSeeded := JBool true |} |};
          clock_reads := S (S (clock_reads w)); uid_draws := S (uid_draws w) |})
    else
      (tt,
       {| localStorage :=
            Some {| version := version (view w); folders := folders (view w);
                    templates := templates (view w);
                    settings := {| sampleSeeded := JBool true |} |};
          clock_reads := clock_reads w; uid_draws := uid_draws w |}).
Proof.
  unfold ensureSampleTemplate, bind. rewrite getStore_result.
  case_bool_decide; [done|].
  destruct (length (templates (view w)) =? 0)%nat;
    unfold uid, nowISO, ret; rewrite saveStore_run, exec_getStore; done.
Qed.

Lemma ensureSampleTemplate_seeds w :
  seeded (exec (ensureSampleTemplate nowISO_at uid_at) w).
Proof.
  unfold exec. rewrite ensureSampleTemplate_run.
  case_bool_decide as Hs; [by apply seeded_after_read|].
  by destruct (length (templates (view w)) =? 0)%nat.
Qed.

Lemma ensureSampleTemplate_noop w :
  seeded w -> exec (ensureSampleTemplate nowISO_at uid_at) w = w.
Proof.
  intros Hs. unfold exec. rewrite ensureSampleTemplate_run.
  rewrite bool_decide_eq_true_2 by done.
  destruct (seeded_stored w Hs) as [s Hw]. rewrite exec_getStore, Hw.
  destruct w; simpl in *. by rewrite Hw.
Qed.

Lemma ensureSampleTemplate_injects w :
  let w' := exec (ensureSampleTemplate nowISO_at uid_at) w in
  templates (view w') = templates (view w) \/
  (~ seeded w /\ templates (view w) = [] /\ length (templates (view w')) = 1%nat).
Proof.
  intros w'. subst w'. unfold exec. rewrite ensureSampleTemplate_run.
  case_bool_decide as Hs; [left; cbn [snd]; by rewrite view_after_read|].
  destruct (Nat.eqb_spec (length (templates (view w))) 0) as [Hl|Hl].
  - right. apply nil_length_inv in Hl. cbn [snd]. rewrite view_saved.
    cbn [templates]. by rewrite Hl.
  - left. cbn [snd]. by rewrite view_saved.
Qed.

Lemma run_op_seeded o w :
  seeded w -> seeded (exec (run_op nowISO_at uid_at o) w).
Proof.
  intros Hs.
  destruct o; cbn [run_op];
    [by rewrite ensureSampleTemplate_noop | unfold exec, bind at 1 ..].
  - unfold listFolders, bind. rewrite getStore_result. by apply seeded_after_read.
  - unfold createFolder, bind. rewrite getStore_result. done.
  - unfold renameFolder, bind. rewrite getStore_result.
    destruct (list_find _ _) as [[i f]|]; [done|]. by apply seeded_after_read.
  - rewrite deleteFolder_run.
    destruct (list_find _ _) as [[i f]|]; [done|]. by apply seeded_after_read.
  - rewrite moveTemplatesToFolder_run. done.
  - unfold getTemplate, bind. rewrite getStore_result. by apply seeded_after_read.
  - unfold createTemplate, bind. rewrite getStore_result. done.
  - rewrite updateTemplate_run.
    destruct (list_find _ _) as [[i t]|]; [done|]. by apply seeded_after_read.
  - unfold deleteTemplate, bind. rewrite getStore_result.
    destruct (list_find _ _) as [[i t]|]; [done|]. by apply seeded_after_read.
Qed.

Lemma run_ops_seeded os w :
  seeded w -> seeded (exec (run_ops nowISO_at uid_at os) w).
Proof.
  revert w. induction os as [|o os IH]; intros w Hs; [done|].
  unfold exec. cbn [run_ops]. unfold bind.
  pose proof (run_op_seeded o w Hs) as Ho. unfold exec in Ho.
  destruct (run_op nowISO_at uid_at o w) as [[] w1]. by apply IH.
Qed.

(** C5. From any state of the storage, after the first-run check has run
    once the flag [sampleSeeded] is true; it is still true after any
    sequence of operations of the store (further first-run checks and
    deletions included), so it never reverts; the check then changes
    nothing at all, so no template comes back; and a check changes the
    templates only when the flag was not yet true and there was no
    template, in which case it adds exactly one. *)
Theorem sampleSeeded_once (os : list op) (w : World) :
  let w1 := exec (ensureSampleTemplate nowISO_at uid_at) w in
  let w2 := exec (run_ops nowISO_at uid_at os) w1 in
  seeded w1 /\
  seeded w2 /\
  exec (ensureSampleTemplate nowISO_at uid_at) w2 = w2 /\
  (templates (view w1) = templates (view w) \/
   (~ seeded w /\ templates (view w) = [] /\ length (templates (view w1)) = 1%nat)).
Proof.
  intros w1 w2.
  assert (H1 : seeded w1) by apply ensureSampleTemplate_seeds.
  assert (H2 : seeded w2) by by apply run_ops_seeded.
  split_and!; [done | done | by apply ensureSampleTemplate_noop |].
  apply ensureSampleTemplate_injects.
Qed.
End StoreFacts.

(** The scenario of the specification, on a storage never written before:
    the first check adds the sample, the user deletes it, and a second
    check leaves the store without template. *)
Lemma sample_not_reintroduced :
  let now := fun n : nat => "2024-03-05T09:00:00.000Z" in
  let ids := fun n : nat => "id_sample" in
  let w0 := {| localStorage := None; clock_reads := 0; uid_draws := 0 |} in
  let w1 := exec (ensureSampleTemplate now ids) w0 in
  let w2 := exec (deleteTemplate "id_sample") w1 in
  let w3 := exec (ensureSampleTemplate now ids) w2 in
  Template.id <$> templates (view w1) = ["id_sample"] /\
  templates (view w2) = [] /\
  templates (view w3) = [] /\
  sampleSeeded (settings (view w3)) = JBool true.
Proof. by vm_compute. Qed.

(** ** The theorems at concrete inputs *)

Lemma render_token_value_witness :
  let o : gmap string value := {[ "date_1" := JStr "2024-03-05" ]} in
  truthy (get_property o "date_1") = true /\
  startsWith "date_1" "date_" = true /\
  @render_token EnUS.env (Some o) "date_1" (Some "shortdate") = "Mar 5, 24".
Proof.
  intros o. split_and!; [by vm_compute | by vm_compute |].
  destruct (@render_token_value EnUS.env o "date_1" (Some "shortdate") eq_refl)
    as [_ Hdate].
  destruct (Hdate eq_refl) as [Hshort _].
  rewrite (Hshort eq_refl). by vm_compute.
Defined.

Lemma formatDate_parsing_witness :
  "2024-03-05" <> "" /\ is_ymd "2024-03-05" /\
  @formatDate EnUS.env (JStr "2024-03-05") "long" = JStr "March 5, 2024".
Proof.
  assert (Hne : "2024-03-05" <> "") by done.
  assert (Hymd : is_ymd "2024-03-05").
  { exists "2024", "03", "05". by vm_compute. }
  split_and!; [done | done |].
  destruct (@formatDate_parsing EnUS.env "2024-03-05" "long" Hne) as [Hnoon _].
  destruct (Hnoon Hymd) as [_ Hfmt].
  rewrite (Hfmt 1709640000000); [by vm_compute | by vm_compute].
Defined.

Lemma render_case_sensitive_witness :
  truthy (JStr "2024-03-05") = true /\
  @render EnUS.env (JStr "{{date_1|LONGDATE}}") (Some {[ "date_1" := JStr "2024-03-05" ]})
  = "2024-03-05".
Proof.
  split; [done|].
  destruct (@render_case_sensitive EnUS.env) as [_ Hfilter].
  by rewrite (Hfilter (JStr "2024-03-05") eq_refl).
Defined.

Lemma render_idempotent_witness :
  let t := "Hi {{first_name}}!" in
  let data : option (gmap string value) := Some {[ "first_name" := JStr "Sam" ]} in
  @render EnUS.env (JStr t) data = "Hi Sam!" /\
  @render EnUS.env (JStr (@render EnUS.env (JStr t) data)) data
  = @render EnUS.env (JStr t) data.
Proof.
  intros t data. split; [by vm_compute|].
  assert (Ht : tokenize t
               = [Text "H"; Text "i"; Text " "; Token "first_name" None; Text "!"])
    by by vm_compute.
  destruct (@render_idempotent EnUS.env t data) as [Hidem Hnone].
  apply Hidem, Hnone; rewrite Ht.
  - intros c Hc.
    repeat (apply elem_of_cons in Hc as [Hc|Hc];
            [first [by injection Hc as -> | discriminate Hc] |]).
    by apply elem_of_nil in Hc.
  - intros key filter Hk.
    repeat (apply elem_of_cons in Hk as [Hk|Hk];
            [first [discriminate Hk | injection Hk as -> ->] |]).
    + vm_compute. by repeat constructor.
    + by apply elem_of_nil in Hk.
Defined.

Lemma deleteFolder_spec_witness :
  "f1" ∈ Folder.id <$> folders (view sample_world) /\
  result (deleteFolder "f1" "keep") sample_world = true /\
  templates (view (exec (deleteFolder "f1" "keep") sample_world))
  = [Template.set_folderId None offer; reminder].
Proof.
  assert (Hin : "f1" ∈ Folder.id <$> folders (view sample_world)) by (by left).
  destruct (deleteFolder_spec "f1" "keep" sample_world) as [_ Hfound].
  destruct (Hfound Hin) as (Hres & _ & _ & Hkeep & _).
  destruct (Hkeep eq_refl) as (Hts & _ & _).
  split_and!; [done | done |]. by rewrite Hts.
Defined.

Lemma updateTemplate_spec_witness :
  let patch := Patch.mk (JStr "  ") JUndefined JUndefined None in
  "t1" ∈ Template.id <$> templates (view sample_world) /\
  result (updateTemplate sample_clock "t1" patch) sample_world = true /\
  exists t',
    templates (view (exec (updateTemplate sample_clock "t1" patch) sample_world))
      !! 0%nat = Some t' /\
    Template.name t' = "Offer" /\
    Template.updatedAt t' = "2024-03-05T09:00:00.000Z".
Proof.
  intros patch.
  assert (Hin : "t1" ∈ Template.id <$> templates (view sample_world)) by (by left).
  destruct (updateTemplate_spec sample_clock "t1" patch sample_world) as [_ Hfound].
  destruct (Hfound Hin)
    as (Hres & _ & i & t & t' & Hi & Hid & Hts & _ & _ & Hu & _ & _ & _ & _ & Hblank).
  split_and!; [done | done |].
  assert (Hi0 : i = 0%nat).
  { destruct i as [|[|i]]; [done | | done]. by injection Hi as <-. }
  subst i. injection Hi as <-.
  exists t'. rewrite Hts. split_and!; [done | | done].
  by rewrite (Hblank eq_refl).
Defined.

Lemma sampleSeeded_once_witness :
  let os := [DeleteTemplate "id_0"; EnsureSampleTemplate] in
  let w1 := exec (ensureSampleTemplate sample_clock sample_ids) fresh_world in
  let w2 := exec (run_ops sample_clock sample_ids os) w1 in
  ~ seeded fresh_world /\ templates (view fresh_world) = [] /\
  seeded w2 /\ templates (view w2) = [] /\
  exec (ensureSampleTemplate sample_clock sample_ids) w2 = w2.
Proof.
  intros os w1 w2.
  destruct (sampleSeeded_once sample_clock sample_ids os fresh_world)
    as (_ & Hs & Hnoop & _).
  split_and!; [done | done | done | by vm_compute | done].
Defined.

(* ===================================================================== *)
(** * Part III: further properties of the code                            *)
(* ===================================================================== *)

(** ** Trimming *)

Lemma chars_rev_app (s1 s2 : string) :
  list_ascii_of_string (String.rev_app s1 s2)
  = rev (list_ascii_of_string s1) ++ list_ascii_of_string s2.
Proof.
  revert s2. induction s1 as [|c s1 IH]; intros s2; simpl; [done|].
  rewrite IH. simpl. by rewrite <- app_assoc.
Qed.

Lemma chars_rev (s : string) :
  list_ascii_of_string (String.rev s) = rev (list_ascii_of_string s).
Proof. unfold String.rev. rewrite chars_rev_app. simpl. by rewrite app_nil_r. Qed.

Lemma chars_app (a b : string) :
  list_ascii_of_string (a +:+ b) = list_ascii_of_string a ++ list_ascii_of_string b.
Proof. induction a as [|c a IH]; simpl; [done | by rewrite IH]. Qed.

Lemma chars_inj (a b : string) :
  list_ascii_of_string a = list_ascii_of_string b -> a = b.
Proof.
  intros E. rewrite <- (string_of_list_ascii_of_string a),
    <- (string_of_list_ascii_of_string b). by rewrite E.
Qed.

Lemma str_rev_involutive (s : string) : String.rev (String.rev s) = s.
Proof. apply chars_inj. by rewrite !chars_rev, rev_involutive. Qed.

Lemma skip_spaces_fixed (s : string) : head_fails is_space s -> skip_spaces s = s.
Proof.
  unfold skip_spaces. destruct s as [|c s]; simpl; [done|]. by intros ->.
Qed.

Lemma head_fails_chars p (s : string) :
  head_fails p s <->
  match list_ascii_of_string s with [] => True | c :: _ => p c = false end.
Proof. by destruct s. Qed.

Lemma trim_trimmed (s : string) : trimmed (trim s).
Proof.
  unfold trimmed, trim. rewrite str_rev_involutive.
  destruct (skip_spaces_spec s) as (ws1 & _ & _ & Hu).
  set (u := skip_spaces s) in *.
  destruct (skip_spaces_spec (String.rev u)) as (ws2 & Hr & _ & Hv).
  set (v := skip_spaces (String.rev u)) in *.
  split; [|done].
  apply head_fails_chars. rewrite chars_rev.
  apply (f_equal list_ascii_of_string) in Hr. rewrite chars_rev, chars_app in Hr.
  apply (f_equal (@rev ascii)) in Hr. rewrite rev_involutive, rev_app_distr in Hr.
  apply head_fails_chars in Hu. rewrite Hr in Hu.
  by destruct (rev (list_ascii_of_string v)).
Qed.

Lemma trim_fixed (s : string) : trimmed s -> trim s = s.
Proof.
  intros [H1 H2]. unfold trim.
  by rewrite (skip_spaces_fixed s), (skip_spaces_fixed (String.rev s)), str_rev_involutive.
Qed.

Lemma trim_idempotent (s : string) : trim (trim s) = trim s.
Proof. apply trim_fixed, trim_trimmed. Qed.

(** ** The pattern *)

(** X1. The pattern of [render] and [missingFields] matches at the start
    of a string exactly when the string begins with two opening braces,
    white space, a non-empty key of letters, digits and underscores,
    optionally a bar and a non-empty filter of letters, white space and
    two closing braces; key, filter and remainder of the match are the
    ones of that reading. *)
Theorem placeholder_grammar (s key : string) (filter : option string) (rest : string) :
  re_exec s = Some (key, filter, rest) <-> token_shape s key filter rest.
Proof. split; [apply re_exec_sound | apply re_exec_complete]. Qed.

Lemma placeholder_grammar_witness :
  re_exec "{{ date_1|longdate }} at noon" = Some ("date_1", Some "longdate", " at noon").
Proof.
  apply (proj2 (placeholder_grammar "{{ date_1|longdate }} at noon" "date_1"
                  (Some "longdate") " at noon")).
  exists " ", " ". split_and!; try done. by intros f [= <-].
Defined.

(** X2. The test of [formatDate] for a date-picker value accepts exactly
    the strings made of four digits, a dash, two digits, a dash and two
    digits; it does not look at the month or the day. *)
Theorem hasDash_exact (s : string) :
  match_classes ymd_pattern s = true <-> is_ymd s.
Proof. apply ymd_pattern_spec. Qed.

Lemma hasDash_exact_witness : match_classes ymd_pattern "2024-13-99" = true.
Proof.
  apply (proj2 (hasDash_exact "2024-13-99")).
  exists "2024", "13", "99". by vm_compute.
Defined.

(** ** More on rendering *)

Section MoreRendering.
Context `{DateEnv}.

(** X3. A template in which the pattern matches nowhere renders to itself,
    whatever the data; so does every template without an opening brace. *)
Theorem render_without_placeholder (t : string) (data : option (gmap string value)) :
  (token_keys t = [] -> render (JStr t) data = t) /\
  (brace_free t -> render (JStr t) data = t).
Proof.
  split; intros Ht; rewrite render_pieces; apply replace_tokens_no_token; [done|].
  by apply brace_free_no_token.
Qed.

Lemma token_in_keys (t key : string) (filter : option string) :
  Token key filter ∈ tokenize t -> key ∈ token_keys t.
Proof.
  unfold token_keys. intros Hin. apply list_elem_of_omap. by exists (Token key filter).
Qed.

(** X4. The output depends on the data only through the values read for
    the keys of the placeholders of the template: two mappings that read
    alike on these keys give the same output. *)
Theorem render_depends_on_keys (t : string) (o1 o2 : gmap string value) :
  (forall key, key ∈ token_keys t -> get_property o1 key = get_property o2 key) ->
  render (JStr t) (Some o1) = render (JStr t) (Some o2).
Proof.
  intros Hagree. rewrite !render_pieces. unfold replace_tokens. f_equal.
  apply list_fmap_ext. intros i p Hp. destruct p as [c | key filter]; [done|].
  simpl. rewrite !render_token_raw.
  rewrite Hagree; [done|]. eapply token_in_keys, list_elem_of_lookup_2, Hp.
Qed.

(** The callback and the test of [missingFields] side by side (used by
    X5). For a key that does not begin with "date_", what replaces its
    placeholder is blank (trims to the empty string) exactly when the key
    is reported missing or its value is falsy. A value such as 0 or false
    is therefore rendered as nothing without being reported missing. *)
Theorem blank_render_iff (data : option (gmap string value)) (key : string)
    (filter : option string) :
  startsWith key "date_" = false ->
  (trim (render_token data key filter) = "" <->
   is_missing (opt_get data key) = true \/ truthy (opt_get data key) = false).
Proof.
  intros Hd. destruct data as [o|]; [|by split; [right|]].
  rewrite render_token_raw. cbv zeta. simpl opt_get. rewrite Hd.
  destruct (truthy (get_property o key)) eqn:Ht; simpl.
  - unfold is_missing. split.
    + intros ->. left. by rewrite orb_true_r.
    + intros [Hm|?]; [|done].
      destruct (get_property o key); try done;
        by apply orb_prop in Hm as [?|?%String.eqb_eq].
  - split; [by right | done].
Qed.
End MoreRendering.

Lemma render_without_placeholder_witness :
  brace_free "Hello }} world" /\
  @render EnUS.env (JStr "Hello }} world") None = "Hello }} world".
Proof.
  assert (Hb : brace_free "Hello }} world") by (by repeat constructor).
  split; [done|].
  by apply (proj2 (@render_without_placeholder EnUS.env "Hello }} world" None)).
Defined.

Lemma render_depends_on_keys_witness :
  @render EnUS.env (JStr "Hi {{first_name}}") (Some {[ "first_name" := JStr "Sam" ]})
  = @render EnUS.env (JStr "Hi {{first_name}}")
      (Some {[ "first_name" := JStr "Sam"; "competitor" := JStr "Acme" ]}).
Proof.
  apply (@render_depends_on_keys EnUS.env).
  intros key Hk.
  assert (Hkeys : token_keys "Hi {{first_name}}" = ["first_name"]) by by vm_compute.
  rewrite Hkeys in Hk. apply list_elem_of_singleton in Hk as ->. by vm_compute.
Defined.

Lemma blank_render_iff_witness :
  let data : option (gmap string value) := Some {[ "competitor" := JNum 0 ]} in
  startsWith "competitor" "date_" = false /\
  is_missing (opt_get data "competitor") = false /\
  trim (@render_token EnUS.env data "competitor" None) = "".
Proof.
  intros data. split_and!; [done | by vm_compute |].
  apply (proj2 (@blank_render_iff EnUS.env data "competitor" None eq_refl)).
  right. by vm_compute.
Defined.

(** ** More on missing fields *)

(** X6. On a non-empty template [missingFields] returns the keys of the
    placeholders, each once and in order of first appearance, for which
    reading the data (own or inherited property) gives undefined, null or
    a value whose string is blank. *)
Theorem missingFields_order (t : string) (data : option (gmap string value)) :
  t <> "" ->
  missingFields (JStr t) data
  = filter (fun key => is_missing (opt_get data key) = true)
           (first_occurrences (token_keys t)) /\
  NoDup (missingFields (JStr t) data) /\
  forall key, key ∈ missingFields (JStr t) data <->
              key ∈ token_keys t /\ is_missing (opt_get data key) = true.
Proof. apply missingFields_spec. Qed.

Lemma missingFields_order_witness :
  missingFields (JStr "{{b}} {{ a }} {{b|x}} {{c}}") (Some {[ "c" := JStr "v" ]})
  = ["b"; "a"].
Proof.
  destruct (missingFields_order "{{b}} {{ a }} {{b|x}} {{c}}"
              (Some {[ "c" := JStr "v" ]})) as [-> _]; [done|].
  by vm_compute.
Defined.

Lemma opt_get_insert (o : gmap string value) (k x : string) (v : value) :
  opt_get (Some (<[k := v]> o)) x
  = if decide (x = k) then v else opt_get (Some o) x.
Proof.
  unfold opt_get, get_property. case_decide as E.
  - subst. by rewrite lookup_insert_eq.
  - by rewrite lookup_insert_ne.
Qed.

(** X7. Filling one field with a string that is not blank removes that
    key, and only that key, from the missing fields. *)
Theorem missingFields_after_fill (t : string) (o : gmap string value)
    (k v : string) :
  t <> "" -> trim v <> "" ->
  missingFields (JStr t) (Some (<[k := JStr v]> o))
  = filter (fun key => key <> k) (missingFields (JStr t) (Some o)).
Proof.
  intros Ht Hv.
  destruct (missingFields_spec t (Some (<[k := JStr v]> o)) Ht) as [-> _].
  destruct (missingFields_spec t (Some o) Ht) as [-> _].
  rewrite filter_twice. apply filter_agree. intros x.
  rewrite opt_get_insert. case_decide as E.
  - subst. unfold is_missing. simpl. rewrite str_eqb_false by done. naive_solver.
  - naive_solver.
Qed.

Lemma missingFields_after_fill_witness :
  let t := "Hi {{first_name}}, re {{company_name}}" in
  let o : gmap string value := {[ "first_name" := JStr "" ]} in
  missingFields (JStr t) (Some o) = ["first_name"; "company_name"] /\
  missingFields (JStr t) (Some (<["first_name" := JStr "Sam"]> o)) = ["company_name"].
Proof.
  intros t o. split; [by vm_compute|].
  rewrite (missingFields_after_fill t o "first_name" "Sam"); [by vm_compute | done | done].
Defined.

(** ** Stamps *)

Lemma brace_free_take n s : brace_free s -> brace_free (str_take n s).
Proof.
  unfold brace_free. revert n. induction s as [|c s IH]; intros [|n] Hs; simpl;
    try by constructor.
  inversion Hs; subst. constructor; [done | by apply IH].
Qed.

Lemma brace_free_drop n s : brace_free s -> brace_free (str_drop n s).
Proof.
  unfold brace_free. revert n. induction s as [|c s IH]; intros [|n] Hs; simpl;
    try done.
  inversion Hs; subst. by apply IH.
Qed.

Lemma str_take_drop n s : str_take n s +:+ str_drop n s = s.
Proof.
  revert n. induction s as [|c s IH]; intros [|n]; simpl; try done. by rewrite IH.
Qed.

Lemma str_take_length n s :
  (n <= String.length s)%nat -> String.length (str_take n s) = n.
Proof.
  revert n. induction s as [|c s IH]; intros [|n] Hn; simpl in *; try done; try lia.
  rewrite IH; [done | lia].
Qed.

Lemma tokenize_after_text (a s : string) :
  brace_free a -> tokenize (a +:+ s) = (Text <$> list_ascii_of_string a) ++ tokenize s.
Proof.
  unfold brace_free. induction a as [|c a IH]; simpl; intros Ha; [done|].
  inversion Ha; subst. rewrite tokenize_text by by apply re_exec_brace.
  by rewrite IH.
Qed.

Lemma tokenize_stamp (key rest : string) :
  valid_key key -> tokenize (stamp key +:+ rest) = Token key None :: tokenize rest.
Proof.
  intros [Hne Hw]. apply tokenize_token, re_exec_complete.
  exists "", "". split_and!; try done.
  unfold stamp. by rewrite !str_app_assoc.
Qed.

Lemma concat_strings_app (l1 l2 : list string) :
  concat_strings (l1 ++ l2) = concat_strings l1 +:+ concat_strings l2.
Proof.
  induction l1 as [|x l1 IH]; [done|].
  change (x +:+ concat_strings (l1 ++ l2) = (x +:+ concat_strings l1) +:+ concat_strings l2).
  by rewrite IH, str_app_assoc.
Qed.

Section Stamps.
Context `{DateEnv}.

(** X8. A stamp inserted by [insertAtCursor] into a field whose text has
    no opening brace is read back as one placeholder with the key of the
    stamp: the template renders as the text before the selection, the
    value of the key, and the text after the selection; the caret ends
    just after the stamp. *)
Theorem stamp_at_cursor (el : Editable.t) (key : string)
    (data : option (gmap string value)) :
  valid_key key -> brace_free (Editable.value el) ->
  let start := default (String.length (Editable.value el)) (Editable.selectionStart el) in
  let end_ := default (String.length (Editable.value el)) (Editable.selectionEnd el) in
  let el' := insertAtCursor el (stamp key) in
  token_keys (Editable.value el') = [key] /\
  render (JStr (Editable.value el')) data
  = str_take start (Editable.value el) +:+ render_token data key None
    +:+ str_drop end_ (Editable.value el) /\
  Editable.selectionStart el' = Some (start + String.length key + 4)%nat /\
  Editable.selectionEnd el' = Editable.selectionStart el'.
Proof.
  intros Hk Hb start end_ el'. subst el'. unfold insertAtCursor. fold start end_.
  cbn [Editable.value Editable.selectionStart Editable.selectionEnd].
  assert (Hbefore : brace_free (str_take start (Editable.value el)))
    by by apply brace_free_take.
  assert (Hafter : brace_free (str_drop end_ (Editable.value el)))
    by by apply brace_free_drop.
  assert (Htok : tokenize (str_take start (Editable.value el) +:+ stamp key
                           +:+ str_drop end_ (Editable.value el))
                 = (Text <$> list_ascii_of_string (str_take start (Editable.value el)))
                   ++ Token key None
                   :: (Text <$> list_ascii_of_string (str_drop end_ (Editable.value el)))).
  { rewrite tokenize_after_text, tokenize_stamp by done.
    by rewrite (tokenize_brace_free _ Hafter). }
  split_and!.
  - unfold token_keys. rewrite Htok, omap_app. simpl.
    assert (Hnone : forall l : list ascii,
              omap (fun p => match p with Token k _ => Some k | Text _ => None end)
                   (Text <$> l) = []).
    { intros l. induction l as [|c l IH]; [done | apply IH]. }
    by rewrite !Hnone.
  - rewrite render_pieces. unfold replace_tokens. rewrite Htok.
    rewrite fmap_app, concat_strings_app, fmap_cons.
    change (concat_strings (?x :: ?l)) with (x +:+ concat_strings l).
    by rewrite !concat_texts.
  - unfold stamp. rewrite !str_length_app. simpl. f_equal. lia.
  - done.
Qed.
End Stamps.

Lemma stamp_at_cursor_witness :
  let el := Editable.mk "Dear , hello" (Some 5%nat) (Some 5%nat) in
  let data : option (gmap string value) := Some {[ "first_name" := JStr "Sam" ]} in
  valid_key "first_name" /\ brace_free (Editable.value el) /\
  Editable.value (insertAtCursor el (stamp "first_name")) = "Dear {{first_name}}, hello" /\
  @render EnUS.env (JStr (Editable.value (insertAtCursor el (stamp "first_name")))) data
  = "Dear Sam, hello".
Proof.
  intros el data.
  assert (Hk : valid_key "first_name") by done.
  assert (Hb : brace_free (Editable.value el)) by (by repeat constructor).
  destruct (@stamp_at_cursor EnUS.env el "first_name" data Hk Hb) as (_ & -> & _).
  split_and!; [done | done | by vm_compute | by vm_compute].
Defined.

(** ** More on the store *)

Lemma str_or_nonempty (a b : string) : b <> "" -> str_or a b <> "".
Proof. unfold str_or. by destruct (String.eqb_spec a ""). Qed.

Lemma str_or_trimmed (a b : string) : trimmed a -> trimmed b -> trimmed (str_or a b).
Proof. unfold str_or. by destruct (String.eqb a ""). Qed.

Lemma view_eta w fs ts :
  fs = folders (view w) -> ts = templates (view w) ->
  {| version := version (view w); folders := fs; templates := ts;
     settings := settings (view w) |} = view w.
Proof. intros -> ->. by destruct (view w). Qed.

Section MoreStore.
Variable nowISO_at : nat -> string.
Variable uid_at : nat -> string.

Lemma createFolder_run name w :
  createFolder nowISO_at uid_at name w =
    let folder :=
      Folder.mk (uid_at (uid_draws w))
        (str_or (trim (to_string (js_or name (JStr "New Folder")))) "New Folder")
        (nowISO_at (clock_reads w)) in
    (folder,
     {| localStorage :=
          Some {| version := version (view w);
                  folders := folders (view w) ++ [folder];
                  templates := templates (view w);
                  settings := settings (view w) |};
        clock_reads := S (clock_reads w); uid_draws := S (uid_draws w) |}).
Proof.
  unfold createFolder, bind. rewrite getStore_result.
  unfold uid, nowISO. rewrite saveStore_run, exec_getStore. done.
Qed.

(** X9. [createFolder] never makes a folder without a name: the name is
    the given one, trimmed, or "New Folder" when that is falsy or blank,
    and it has no white space at either end. The folder gets the next id
    of the generator and the current time, goes last in the list that
    [listFolders] returns, and the templates are left as they were. *)
Theorem createFolder_spec (name : value) (w : World) :
  let f := result (createFolder nowISO_at uid_at name) w in
  let w' := exec (createFolder nowISO_at uid_at name) w in
  Folder.name f <> "" /\ trimmed (Folder.name f) /\
  (truthy name = true -> trim (to_string name) <> "" ->
     Folder.name f = trim (to_string name)) /\
  (truthy name = false \/ trim (to_string name) = "" -> Folder.name f = "New Folder") /\
  Folder.id f = uid_at (uid_draws w) /\
  Folder.createdAt f = nowISO_at (clock_reads w) /\
  result listFolders w' = folders (view w) ++ [f] /\
  templates (view w') = templates (view w).
Proof.
  intros f w'. subst f w'. unfold exec, result. rewrite createFolder_run.
  cbn [fst snd Folder.name Folder.id Folder.createdAt].
  split_and!; try done.
  - by apply str_or_nonempty.
  - apply str_or_trimmed; [apply trim_trimmed | by vm_compute].
  - intros Ht Hn. unfold js_or, str_or. rewrite Ht. by rewrite str_eqb_false.
  - intros [Hf|Hb]; unfold js_or, str_or.
    + by rewrite Hf.
    + destruct (truthy name); [by rewrite Hb | done].
Qed.

Lemma renameFolder_run id newName w :
  renameFolder id newName w =
    match list_find (fun x => Folder.id x = id) (folders (view w)) with
    | None => (false, exec getStore w)
    | Some (i, f) =>
        (true,
         {| localStorage :=
              Some {| version := version (view w);
                      folders :=
                        <[i := Folder.mk (Folder.id f)
                                 (str_or (trim (to_string (js_or newName (JStr ""))))
                                         (Folder.name f))
                                 (Folder.createdAt f)]> (folders (view w));
                      templates := templates (view w);
                      settings := settings (view w) |};
            clock_reads := clock_reads w; uid_draws := uid_draws w |})
    end.
Proof.
  unfold renameFolder, bind. rewrite getStore_result.
  destruct (list_find _ _) as [[i f]|]; [|done].
  rewrite saveStore_run, exec_getStore. done.
Qed.

(** X10. [renameFolder]: with an unknown id it returns false and the store
    reads as before. With the id of a folder it returns true; a new name
    that is falsy or blank leaves the whole store as it was; otherwise the
    first folder with that id takes the trimmed name and keeps its id and
    creation time, and nothing else changes. *)
Theorem renameFolder_spec (id : string) (newName : value) (w : World) :
  let store := view w in
  let w' := exec (renameFolder id newName) w in
  let name' := trim (to_string (js_or newName (JStr ""))) in
  (id ∉ Folder.id <$> folders store ->
     result (renameFolder id newName) w = false /\ view w' = store) /\
  (id ∈ Folder.id <$> folders store ->
     result (renameFolder id newName) w = true /\
     templates (view w') = templates store /\
     Folder.id <$> folders (view w') = Folder.id <$> folders store /\
     (name' = "" -> view w' = store) /\
     (name' <> "" ->
        exists i f, folders store !! i = Some f /\ Folder.id f = id /\
          folders (view w')
          = <[i := Folder.mk id name' (Folder.createdAt f)]> (folders store))).
Proof.
  intros store w' name'. subst store w' name'. unfold exec, result.
  rewrite renameFolder_run. split.
  - intros Hn%find_by_id_None. rewrite Hn. cbn [fst snd]. split; [done|].
    apply view_after_read.
  - intros (i & f & Hf)%find_by_id_Some. rewrite Hf. cbn [fst snd].
    apply list_find_Some in Hf as (Hi & Hid & _).
    rewrite view_saved. cbn [folders templates]. split_and!; [done | done | | |].
    + rewrite list_fmap_insert. simpl. apply list_insert_id.
      by rewrite list_lookup_fmap, Hi.
    + intros ->. apply view_eta; [|done]. unfold str_or. simpl.
      apply list_insert_id. by destruct f.
    + intros Hne. exists i, f. split_and!; [done | done |].
      unfold str_or. rewrite str_eqb_false by done. by rewrite Hid.
Qed.

(** X11. [moveTemplatesToFolder] always returns true. Each template whose
    id is in the list gets the given folder id, or null when that is null
    or the empty string, and keeps every other field; the other templates,
    their order and the folders are unchanged; when no template has an id
    of the list the store reads as before. The folder id is not checked
    against the folders of the store. *)
Theorem moveTemplatesToFolder_spec (ids : list string) (f : option string) (w : World) :
  let store := view w in
  let w' := exec (moveTemplatesToFolder ids f) w in
  result (moveTemplatesToFolder ids f) w = true /\
  folders (view w') = folders store /\
  length (templates (view w')) = length (templates store) /\
  (forall i t, templates store !! i = Some t ->
     templates (view w') !! i
     = Some (if decide (Template.id t ∈ ids)
             then Template.set_folderId (or_null f) t else t)) /\
  (f = Some "" \/ f = None -> or_null f = None) /\
  ((forall t, t ∈ templates store -> Template.id t ∉ ids) -> view w' = store).
Proof.
  intros store w'. subst store w'. unfold exec, result.
  rewrite moveTemplatesToFolder_run. cbn [fst snd]. rewrite view_saved.
  cbn [folders templates]. split_and!; [done | done | by rewrite length_fmap | | |].
  - intros i t Hi. rewrite list_lookup_fmap, Hi. simpl.
    by case_bool_decide; case_decide.
  - by intros [-> | ->].
  - intros Hnone. apply view_eta; [done|].
    rewrite <- (list_fmap_id (templates (view w))) at 2.
    apply list_fmap_ext. intros i t Hi. simpl.
    rewrite bool_decide_eq_false_2; [done|].
    eapply Hnone, list_elem_of_lookup_2, Hi.
Qed.

Lemma createTemplate_run name subject content folderId w :
  createTemplate nowISO_at uid_at name subject content folderId w =
    let t :=
      Template.mk (uid_at (uid_draws w))
        (str_or (trim (to_string (js_or name (JStr "Untitled Template"))))
                "Untitled Template")
        (trim (to_string (js_or subject (JStr ""))))
        (trim (to_string (js_or content (JStr ""))))
        folderId (nowISO_at (clock_reads w)) (nowISO_at (S (clock_reads w))) in
    (t,
     {| localStorage :=
          Some {| version := version (view w); folders := folders (view w);
                  templates := templates (view w) ++ [t];
                  settings := settings (view w) |};
        clock_reads := S (S (clock_reads w)); uid_draws := S (uid_draws w) |}).
Proof.
  unfold createTemplate, bind. rewrite getStore_result.
  unfold uid, nowISO. rewrite saveStore_run, exec_getStore. done.
Qed.

Lemma deleteTemplate_run id w :
  deleteTemplate id w =
    match list_find (fun x => Template.id x = id) (templates (view w)) with
    | None => (false, exec getStore w)
    | Some (i, _) =>
        (true,
         {| localStorage :=
              Some {| version := version (view w); folders := folders (view w);
                      templates := delete i (templates (view w));
                      settings := settings (view w) |};
            clock_reads := clock_reads w; uid_draws := uid_draws w |})
    end.
Proof.
  unfold deleteTemplate, bind. rewrite getStore_result.
  destruct (list_find _ _) as [[i t]|]; [|done].
  rewrite saveStore_run, exec_getStore. done.
Qed.

Lemma getTemplate_run id w :
  getTemplate id w =
    (snd <$> list_find (fun t => Template.id t = id) (templates (view w)),
     exec getStore w).
Proof. unfold getTemplate, bind. by rewrite getStore_result. Qed.

Lemma find_last_fresh {A} (key : A -> string) (l : list A) (x : A) (id : string) :
  key x = id -> id ∉ key <$> l ->
  list_find (fun y => key y = id) (l ++ [x]) = Some (length l, x).
Proof.
  intros Hx Hfresh%find_by_id_None. rewrite list_find_app_r by done. simpl.
  by rewrite decide_True.
Qed.

(** X12. [getTemplate] only reads: the store is as before. It returns null
    exactly when no template has the id, and otherwise the first template
    of the store with that id. *)
Theorem getTemplate_spec (id : string) (w : World) :
  view (exec (getTemplate id) w) = view w /\
  (result (getTemplate id) w = None <-> id ∉ Template.id <$> templates (view w)) /\
  (forall t, result (getTemplate id) w = Some t ->
     Template.id t = id /\
     exists i, templates (view w) !! i = Some t /\
       forall j u, templates (view w) !! j = Some u -> (j < i)%nat -> Template.id u <> id).
Proof.
  unfold exec, result. rewrite getTemplate_run. cbn [fst snd]. split_and!.
  - apply view_after_read.
  - rewrite <- find_by_id_None. by destruct (list_find _ _).
  - intros t. destruct (list_find _ _) as [[i u]|] eqn:E; [|done].
    intros [= ->]. apply list_find_Some in E as (Hi & Hid & Hfirst). eauto.
Qed.

(** X13. [createTemplate] appends a template that has the next id of the
    generator; its name is the given one, trimmed, or "Untitled Template"
    when that is falsy or blank, so it is never empty; its subject and its
    content are the given ones, trimmed, or the empty string when they are
    falsy; it has the folder id as given and two successive readings of
    the clock; the folders are unchanged. When the id is not already in
    use, [getTemplate] on it returns that template. *)
Theorem createTemplate_spec (name subject content : value)
    (folderId : option string) (w : World) :
  let t := result (createTemplate nowISO_at uid_at name subject content folderId) w in
  let w' := exec (createTemplate nowISO_at uid_at name subject content folderId) w in
  templates (view w') = templates (view w) ++ [t] /\
  folders (view w') = folders (view w) /\
  Template.id t = uid_at (uid_draws w) /\
  Template.name t <> "" /\ trimmed (Template.name t) /\
  trimmed (Template.subject t) /\ trimmed (Template.content t) /\
  (truthy name = true -> trim (to_string name) <> "" ->
     Template.name t = trim (to_string name)) /\
  (truthy name = false \/ trim (to_string name) = "" ->
     Template.name t = "Untitled Template") /\
  Template.subject t = (if truthy subject then trim (to_string subject) else "") /\
  Template.content t = (if truthy content then trim (to_string content) else "") /\
  Template.folderId t = folderId /\
  Template.createdAt t = nowISO_at (clock_reads w) /\
  Template.updatedAt t = nowISO_at (S (clock_reads w)) /\
  (uid_at (uid_draws w) ∉ Template.id <$> templates (view w) ->
     result (getTemplate (Template.id t)) w' = Some t).
Proof.
  intros t w'. subst t w'. unfold exec, result. rewrite createTemplate_run.
  cbn [fst snd Template.id Template.name Template.subject Template.content
       Template.folderId Template.createdAt Template.updatedAt].
  rewrite getTemplate_run, view_saved. cbn [fst templates folders].
  split_and!; try done; try apply trim_trimmed.
  - by apply str_or_nonempty.
  - apply str_or_trimmed; [apply trim_trimmed | by vm_compute].
  - intros Ht Hn. unfold js_or, str_or. rewrite Ht. by rewrite str_eqb_false.
  - intros [Hf|Hb]; unfold js_or, str_or.
    + by rewrite Hf.
    + destruct (truthy name); [by rewrite Hb | done].
  - unfold js_or. by destruct (truthy subject).
  - unfold js_or. by destruct (truthy content).
  - intros Hfresh.
    match goal with |- context [ _ ++ [?x] ] => set (t := x) end.
    by rewrite (find_last_fresh Template.id _ t (uid_at (uid_draws w)) eq_refl Hfresh).
Qed.

(** X14. [deleteTemplate]: with an unknown id it returns false and the
    store reads as before. With the id of a template it returns true and
    removes the first template with that id, and only it: one template
    fewer, the others in their order, the folders unchanged; when ids are
    unique [getTemplate] on that id then returns null. *)
Theorem deleteTemplate_spec (id : string) (w : World) :
  let store := view w in
  let w' := exec (deleteTemplate id) w in
  (id ∉ Template.id <$> templates store ->
     result (deleteTemplate id) w = false /\ view w' = store) /\
  (id ∈ Template.id <$> templates store ->
     result (deleteTemplate id) w = true /\
     folders (view w') = folders store /\
     S (length (templates (view w'))) = length (templates store) /\
     (exists i t, templates store !! i = Some t /\ Template.id t = id /\
        templates (view w') = delete i (templates store)) /\
     (NoDup (Template.id <$> templates store) ->
        result (getTemplate id) w' = None)).
Proof.
  intros store w'. subst store w'. unfold exec, result.
  rewrite deleteTemplate_run. split.
  - intros Hn%find_by_id_None. rewrite Hn. cbn [fst snd]. split; [done|].
    apply view_after_read.
  - intros (i & t & Hf)%find_by_id_Some. rewrite Hf. cbn [fst snd].
    apply list_find_Some in Hf as (Hi & Hid & _).
    rewrite getTemplate_run, view_saved. cbn [fst folders templates].
    split_and!; [done | done | | by eauto |].
    + rewrite length_delete by eauto. apply lookup_lt_Some in Hi. lia.
    + intros Hnd.
      assert (Hgone : id ∉ Template.id <$> delete i (templates (view w))).
      { rewrite <- Hid. by apply delete_forgets_id. }
      apply find_by_id_None in Hgone. by rewrite Hgone.
Qed.

(** X15. Creating a template and deleting it by the id it was given leaves
    the templates and the folders as they were, provided that id was not
    already in use. *)
Theorem create_then_delete_template (name subject content : value)
    (folderId : option string) (w : World) :
  uid_at (uid_draws w) ∉ Template.id <$> templates (view w) ->
  let t := result (createTemplate nowISO_at uid_at name subject content folderId) w in
  let w1 := exec (createTemplate nowISO_at uid_at name subject content folderId) w in
  let w2 := exec (deleteTemplate (Template.id t)) w1 in
  result (deleteTemplate (Template.id t)) w1 = true /\
  templates (view w2) = templates (view w) /\
  folders (view w2) = folders (view w).
Proof.
  intros Hfresh t w1 w2. subst t w1 w2. unfold exec, result.
  rewrite createTemplate_run. cbn [fst snd Template.id].
  rewrite deleteTemplate_run, view_saved. cbn [templates folders version settings].
  match goal with |- context [ _ ++ [?x] ] => set (t := x) end.
  rewrite (find_last_fresh Template.id _ t (uid_at (uid_draws w)) eq_refl Hfresh). cbn [fst snd].
  rewrite view_saved. cbn [templates folders].
  split_and!; [done | | done].
  by rewrite delete_middle, app_nil_r.
Qed.

(** X16. No dangling reference is left by [deleteFolder]: if every template
    is unfiled or refers to a folder of the store before the call, the
    same holds after it, whatever the id and the mode. *)
Theorem deleteFolder_keeps_references (id mode : string) (w : World) :
  refs_ok (view w) -> refs_ok (view (exec (deleteFolder id mode) w)).
Proof.
  intros Hok. unfold exec. rewrite deleteFolder_run.
  destruct (list_find _ _) as [[idx f]|] eqn:Hf; cbn [snd];
    [|by rewrite view_after_read].
  apply list_find_Some in Hf as (Hidx & Hid & _).
  rewrite view_saved. intros t id'. cbn [templates folders]. intros Ht Hfid.
  assert (Hold : id' ∈ Folder.id <$> folders (view w) /\ id' <> id).
  { destruct (String.eqb mode "deleteTemplates").
    - apply list_elem_of_filter in Ht as [Hne Ht]. split; [by eapply Hok | congruence].
    - apply list_elem_of_fmap in Ht as (u & -> & Hu).
      pose proof (unfile_folderId id u) as Hne. unfold unfile in *.
      case_bool_decide; [done|]. split; [by eapply Hok | congruence]. }
  destruct Hold as [Hin Hne].
  apply list_elem_of_fmap in Hin as (g & -> & Hg).
  apply list_elem_of_lookup in Hg as [j Hj].
  assert (j <> idx) by (intros ->; congruence).
  apply list_elem_of_fmap. exists g. split; [done|].
  apply list_elem_of_lookup.
  destruct (decide (j < idx)%nat).
  - exists j. by rewrite list_lookup_delete_lt.
  - exists (pred j). rewrite list_lookup_delete_ge by lia.
    by replace (S (pred j)) with j by lia.
Qed.

(** X17. Creating a folder and deleting it by the id it was given, in
    either mode, leaves the folders and the templates as they were,
    provided that id was not already in use and no template was left with
    a dangling reference. *)
Theorem create_then_delete_folder (name : value) (mode : string) (w : World) :
  uid_at (uid_draws w) ∉ Folder.id <$> folders (view w) ->
  refs_ok (view w) ->
  let f := result (createFolder nowISO_at uid_at name) w in
  let w1 := exec (createFolder nowISO_at uid_at name) w in
  let w2 := exec (deleteFolder (Folder.id f) mode) w1 in
  result (deleteFolder (Folder.id f) mode) w1 = true /\
  folders (view w2) = folders (view w) /\
  templates (view w2) = templates (view w).
Proof.
  intros Hfresh Hok f w1 w2. subst f w1 w2. unfold exec, result.
  rewrite createFolder_run. cbn [fst snd Folder.id].
  rewrite deleteFolder_run, view_saved. cbn [templates folders version settings].
  match goal with |- context [ _ ++ [?x] ] => set (f := x) end.
  rewrite (find_last_fresh Folder.id _ f (uid_at (uid_draws w)) eq_refl Hfresh). cbn [fst snd].
  rewrite view_saved. cbn [templates folders].
  assert (Hunref : forall t, t ∈ templates (view w) ->
                             Template.folderId t <> Some (uid_at (uid_draws w))).
  { intros t Ht Hf. apply Hfresh. by eapply Hok. }
  split_and!; [done | |].
  - by rewrite delete_middle, app_nil_r.
  - destruct (String.eqb mode "deleteTemplates").
    + induction (templates (view w)) as [|t ts IH]; [done|].
      rewrite filter_cons, decide_True by (apply Hunref; by left).
      f_equal. apply IH. intros u Hu. apply Hunref. by right.
    + rewrite <- (list_fmap_id (templates (view w))) at 2.
      apply list_fmap_ext. intros i t Hi. apply unfile_keeps.
      eapply Hunref, list_elem_of_lookup_2, Hi.
Qed.

(** *** Invariants along any sequence of operations *)

Lemma exec_then_ret {A} (c : M A) w : exec (c;; ret tt) w = exec c w.
Proof. unfold exec, bind, ret. by destruct (c w). Qed.

Lemma exec_run_ops_cons o os w :
  exec (run_ops nowISO_at uid_at (o :: os)) w
  = exec (run_ops nowISO_at uid_at os) (exec (run_op nowISO_at uid_at o) w).
Proof.
  unfold exec. cbn [run_ops]. unfold bind.
  by destruct (run_op nowISO_at uid_at o w).
Qed.

Lemma sample_name_nonempty : "Sample — Quick Follow-up" <> "".
Proof. done. Qed.

Lemma apply_patch_name patch t :
  Template.name t <> "" -> Template.name (apply_patch patch t) <> "".
Proof.
  intros Ht. destruct (apply_patch_fields patch t) as (_ & _ & _ & -> & _).
  by repeat case_decide.
Qed.

Lemma run_op_names o w :
  names_ok (view w) -> names_ok (view (exec (run_op nowISO_at uid_at o) w)).
Proof.
  intros [HF HT].
  destruct o; cbn [run_op]; rewrite ?exec_then_ret; unfold exec.
  - rewrite ensureSampleTemplate_run. case_bool_decide; cbn [snd].
    { by rewrite view_after_read. }
    destruct (length (templates (view w)) =? 0)%nat; cbn [snd]; rewrite view_saved;
      split; cbn [folders templates]; try done.
    apply Forall_app. split; [done|]. by repeat constructor.
  - unfold listFolders, bind, ret. rewrite getStore_result. cbn [snd].
    by rewrite view_after_read.
  - rewrite createFolder_run. cbn [snd]. rewrite view_saved.
    split; cbn [folders templates]; [|done].
    apply Forall_app. split; [done|]. constructor; [|done]. by apply str_or_nonempty.
  - rewrite renameFolder_run.
    destruct (list_find _ _) as [[i f]|] eqn:E; cbn [snd];
      [|by rewrite view_after_read].
    apply list_find_Some in E as (Hi & _ & _).
    rewrite view_saved. split; cbn [folders templates]; [|done].
    apply Forall_insert; [done|]. apply str_or_nonempty.
    by eapply (Forall_lookup_1 _ _ _ _ HF).
  - rewrite deleteFolder_run.
    destruct (list_find _ _) as [[i f]|]; cbn [snd]; [|by rewrite view_after_read].
    rewrite view_saved. split; cbn [folders templates]; [by apply Forall_delete|].
    destruct (String.eqb mode "deleteTemplates").
    + apply Forall_forall. intros t [_ Ht]%list_elem_of_filter.
      by eapply (proj1 (Forall_forall _ _) HT).
    + apply Forall_fmap, Forall_forall. intros t Ht.
      change (Template.name (unfile id t) <> "").
      destruct (unfile_keeps id t) as (_ & -> & _).
      by eapply (proj1 (Forall_forall _ _) HT).
  - rewrite moveTemplatesToFolder_run. cbn [snd]. rewrite view_saved.
    split; cbn [folders templates]; [done|].
    apply Forall_fmap, Forall_forall. intros t Ht. simpl.
    case_bool_decide; simpl; by eapply (proj1 (Forall_forall _ _) HT).
  - rewrite getTemplate_run. cbn [snd]. by rewrite view_after_read.
  - rewrite createTemplate_run. cbn [snd]. rewrite view_saved.
    split; cbn [folders templates]; [done|].
    apply Forall_app. split; [done|]. constructor; [|done]. by apply str_or_nonempty.
  - rewrite updateTemplate_run.
    destruct (list_find _ _) as [[i t]|] eqn:E; cbn [snd];
      [|by rewrite view_after_read].
    apply list_find_Some in E as (Hi & _ & _).
    rewrite view_saved. split; cbn [folders templates]; [done|].
    apply Forall_insert; [done|]. simpl. apply apply_patch_name.
    by eapply (Forall_lookup_1 _ _ _ _ HT).
  - rewrite deleteTemplate_run.
    destruct (list_find _ _) as [[i t]|]; cbn [snd]; [|by rewrite view_after_read].
    rewrite view_saved. split; cbn [folders templates]; [done|].
    by apply Forall_delete.
Qed.

(** X18. No operation of the store leaves a folder or a template without
    a name: if every folder and template has a non-empty name, this is
    still so after any sequence of operations, whatever their arguments. *)
Theorem names_stay_nonempty (os : list op) (w : World) :
  names_ok (view w) -> names_ok (view (exec (run_ops nowISO_at uid_at os) w)).
Proof.
  revert w. induction os as [|o os IH]; intros w Hw; [done|].
  rewrite exec_run_ops_cons. by apply IH, run_op_names.
Qed.

(** What one operation does to the ids: it removes some, or it adds the
    next id of the generator as a folder id or as a template id. *)
Lemma run_op_ids o w :
  let w' := exec (run_op nowISO_at uid_at o) w in
  let F w := Folder.id <$> folders (view w) in
  let T w := Template.id <$> templates (view w) in
  (uid_draws w' = uid_draws w /\ F w' `sublist_of` F w /\ T w' `sublist_of` T w) \/
  (uid_draws w' = S (uid_draws w) /\ F w' = F w ++ [uid_at (uid_draws w)] /\ T w' = T w) \/
  (uid_draws w' = S (uid_draws w) /\ F w' = F w /\ T w' = T w ++ [uid_at (uid_draws w)]).
Proof.
  intros w' F T. subst w' F T. cbv beta.
  assert (Hread : uid_draws (exec getStore w) = uid_draws w /\
                  view (exec getStore w) = view w).
  { split; [by rewrite exec_getStore | apply view_after_read]. }
  destruct Hread as [Hd Hv].
  destruct o; cbn [run_op]; rewrite ?exec_then_ret; unfold exec.
  - rewrite ensureSampleTemplate_run. case_bool_decide; cbn [snd].
    { left. by rewrite Hd, Hv. }
    destruct (length (templates (view w)) =? 0)%nat; cbn [snd]; rewrite view_saved;
      cbn [folders templates uid_draws].
    + right; right. by rewrite fmap_app.
    + by left.
  - unfold listFolders, bind, ret. rewrite getStore_result. cbn [snd]. left. by rewrite Hd, Hv.
  - rewrite createFolder_run. cbn [snd]. rewrite view_saved.
    cbn [folders templates uid_draws]. right; left. by rewrite fmap_app.
  - rewrite renameFolder_run.
    destruct (list_find _ _) as [[i f]|] eqn:E; cbn [snd];
      [|left; by rewrite Hd, Hv].
    apply list_find_Some in E as (Hi & _ & _).
    rewrite view_saved. cbn [folders templates uid_draws]. left.
    split_and!; [done | | done].
    rewrite list_fmap_insert. simpl. rewrite list_insert_id; [done|].
    by rewrite list_lookup_fmap, Hi.
  - rewrite deleteFolder_run.
    destruct (list_find _ _) as [[i f]|]; cbn [snd]; [|left; by rewrite Hd, Hv].
    rewrite view_saved. cbn [folders templates uid_draws]. left.
    split_and!; [done | apply fmap_sublist, sublist_delete |].
    destruct (String.eqb mode "deleteTemplates").
    + apply fmap_sublist, sublist_filter.
    + rewrite <- list_fmap_compose.
      rewrite (list_fmap_ext (Template.id ∘ unfile id) Template.id (templates (view w)));
        [done|]. intros j t _. apply unfile_keeps.
  - rewrite moveTemplatesToFolder_run. cbn [snd]. rewrite view_saved.
    cbn [folders templates uid_draws]. left. split_and!; [done | done |].
    rewrite <- list_fmap_compose.
    match goal with |- ?g <$> _ `sublist_of` _ =>
      rewrite (list_fmap_ext g Template.id (templates (view w))) end; [done|].
    intros j t _. simpl. by case_bool_decide.
  - rewrite getTemplate_run. cbn [snd]. left. by rewrite Hd, Hv.
  - rewrite createTemplate_run. cbn [snd]. rewrite view_saved.
    cbn [folders templates uid_draws]. right; right. by rewrite fmap_app.
  - rewrite updateTemplate_run.
    destruct (list_find _ _) as [[i t]|] eqn:E; cbn [snd];
      [|left; by rewrite Hd, Hv].
    apply list_find_Some in E as (Hi & _ & _).
    rewrite view_saved. cbn [folders templates uid_draws]. left.
    split_and!; [done | done |].
    rewrite list_fmap_insert. simpl.
    destruct (apply_patch_fields patch t) as (-> & _).
    rewrite list_insert_id; [done|]. by rewrite list_lookup_fmap, Hi.
  - rewrite deleteTemplate_run.
    destruct (list_find _ _) as [[i t]|]; cbn [snd]; [|left; by rewrite Hd, Hv].
    rewrite view_saved. cbn [folders templates uid_draws]. left.
    split_and!; [done | done | apply fmap_sublist, sublist_delete].
Qed.

Lemma run_op_ids_ok o w :
  (forall n m, uid_at n = uid_at m -> n = m) ->
  ids_ok uid_at w -> ids_ok uid_at (exec (run_op nowISO_at uid_at o) w).
Proof.
  intros Hinj (HF & HT & Hfresh). unfold ids_ok.
  destruct (run_op_ids o w) as [(-> & SF & ST) | [(-> & -> & ->) | (-> & -> & ->)]].
  - split_and!; [exact (sublist_NoDup _ _ HF SF) | exact (sublist_NoDup _ _ HT ST) |].
    intros n Hn. destruct (Hfresh n Hn) as [H1 H2].
    split; intros Hin; [apply H1 | apply H2]; by eapply elem_of_sublist.
  - split_and!; [| done |].
    + apply NoDup_app. split_and!; [done | | apply NoDup_singleton].
      intros x Hx Hin%list_elem_of_singleton. subst x.
      by destruct (Hfresh (uid_draws w)); [lia|].
    + intros n Hn. destruct (Hfresh n) as [H1 H2]; [lia|]. split; [|done].
      rewrite elem_of_app, list_elem_of_singleton. intros [?|E]; [done|].
      apply Hinj in E. lia.
  - split_and!; [done | |].
    + apply NoDup_app. split_and!; [done | | apply NoDup_singleton].
      intros x Hx Hin%list_elem_of_singleton. subst x.
      by destruct (Hfresh (uid_draws w)); [lia|].
    + intros n Hn. destruct (Hfresh n) as [H1 H2]; [lia|]. split; [done|].
      rewrite elem_of_app, list_elem_of_singleton. intros [?|E]; [done|].
      apply Hinj in E. lia.
Qed.

(** X19. Ids stay unique. With a generator that never gives the same id
    twice nor an id already in the store, folder ids are pairwise distinct
    and template ids are pairwise distinct after any sequence of
    operations, if they were before it. *)
Theorem ids_stay_unique (os : list op) (w : World) :
  (forall n m, uid_at n = uid_at m -> n = m) ->
  ids_ok uid_at w -> ids_ok uid_at (exec (run_ops nowISO_at uid_at os) w).
Proof.
  intros Hinj. revert w. induction os as [|o os IH]; intros w Hw; [done|].
  rewrite exec_run_ops_cons. by apply IH, run_op_ids_ok.
Qed.
End MoreStore.

(** ** Listing templates *)

Section ListingFacts.
Variable localeCompare : string -> string -> Z.

Lemma sort_insert_perm x l : sort_insert localeCompare x l ≡ₚ x :: l.
Proof.
  induction l as [|y l IH]; simpl; [done|].
  destruct (_ <=? 0); [done|]. rewrite IH. apply Permutation_swap.
Qed.

Lemma sort_by_name_perm l : sort_by_name localeCompare l ≡ₚ l.
Proof.
  induction l as [|x l IH]; simpl; [done|]. by rewrite sort_insert_perm, IH.
Qed.

Lemma sort_insert_sorted x l :
  (forall a b, localeCompare a b <= 0 \/ localeCompare b a <= 0) ->
  (forall a b c, localeCompare a b <= 0 -> localeCompare b c <= 0 ->
                 localeCompare a c <= 0) ->
  name_sorted localeCompare l -> name_sorted localeCompare (sort_insert localeCompare x l).
Proof.
  intros Htotal Htrans. unfold name_sorted.
  induction l as [|y l IH]; intros Hs; simpl.
  - by repeat constructor.
  - apply StronglySorted_inv in Hs as [Hl Hy].
    destruct (Z.leb_spec (localeCompare (Template.name x) (Template.name y)) 0) as [Hle|Hgt].
    + constructor; [by constructor|]. constructor; [done|].
      eapply Forall_impl; [exact Hy|]. intros z Hz. simpl in *. by eapply Htrans.
    + constructor; [by apply IH|].
      assert (Hyx : localeCompare (Template.name y) (Template.name x) <= 0)
        by (destruct (Htotal (Template.name x) (Template.name y)); [lia | done]).
      apply Forall_forall. intros z Hz.
      rewrite sort_insert_perm in Hz. apply elem_of_cons in Hz as [->|Hz]; [done|].
      by eapply (proj1 (Forall_forall _ _) Hy).
Qed.

Lemma sort_by_name_sorted l :
  (forall a b, localeCompare a b <= 0 \/ localeCompare b a <= 0) ->
  (forall a b c, localeCompare a b <= 0 -> localeCompare b c <= 0 ->
                 localeCompare a c <= 0) ->
  name_sorted localeCompare (sort_by_name localeCompare l).
Proof.
  intros Htotal Htrans. induction l as [|x l IH]; simpl; [constructor|].
  by apply sort_insert_sorted.
Qed.

Lemma name_sorted_filter (P : Template.t -> Prop) `{!forall t, Decision (P t)} l :
  name_sorted localeCompare l -> name_sorted localeCompare (filter P l).
Proof.
  unfold name_sorted. induction l as [|x l IH]; intros Hs; [done|].
  apply StronglySorted_inv in Hs as [Hl Hx]. rewrite filter_cons.
  case_decide; [|by apply IH]. constructor; [by apply IH|].
  apply Forall_forall. intros z [_ Hz]%list_elem_of_filter.
  by eapply (proj1 (Forall_forall _ _) Hx).
Qed.

(** X20. [listTemplates] only reads the store. Without a filter it returns
    all the templates, with a [folderId] it returns exactly those whose
    [folderId] is that value (null selects the unfiled ones); nothing is
    lost or repeated. When the comparison of names is a total preorder,
    the result is in ascending order of name. *)
Theorem listTemplates_spec (folderId : option (option string)) (w : World) :
  let r := result (listTemplates localeCompare folderId) w in
  view (exec (listTemplates localeCompare folderId) w) = view w /\
  r ≡ₚ match folderId with
       | None => templates (view w)
       | Some f => filter (fun t => Template.folderId t = f) (templates (view w))
       end /\
  ((forall a b, localeCompare a b <= 0 \/ localeCompare b a <= 0) ->
   (forall a b c, localeCompare a b <= 0 -> localeCompare b c <= 0 ->
                  localeCompare a c <= 0) ->
   name_sorted localeCompare r).
Proof.
  intros r. subst r. unfold exec, result, listTemplates, bind.
  rewrite getStore_result.
  destruct folderId as [f|]; unfold ret; cbn [fst snd]; split_and!;
    try apply view_after_read.
  - by rewrite sort_by_name_perm.
  - intros Htotal Htrans. by apply name_sorted_filter, sort_by_name_sorted.
  - apply sort_by_name_perm.
  - intros Htotal Htrans. by apply sort_by_name_sorted.
Qed.
End ListingFacts.

Lemma code_unit_compare_le a b : code_unit_compare a b <= 0 <-> String.le a b.
Proof.
  unfold code_unit_compare. repeat case_bool_decide; split; try done; lia.
Qed.

Lemma listTemplates_spec_witness :
  let zeta := Template.mk "t1" "Zeta" "" "z" None old_stamp old_stamp in
  let alpha := Template.mk "t2" "Alpha" "" "a" (Some "f1") old_stamp old_stamp in
  let w := {| localStorage :=
                Some {| version := 1; folders := [Folder.mk "f1" "Leads" old_stamp];
                        templates := [zeta; alpha];
                        settings := {| sampleSeeded := JBool true |} |};
              clock_reads := 0; uid_draws := 0 |} in
  result (listTemplates code_unit_compare None) w = [alpha; zeta] /\
  result (listTemplates code_unit_compare (Some None)) w = [zeta] /\
  name_sorted code_unit_compare (result (listTemplates code_unit_compare None) w).
Proof.
  intros zeta alpha w. split_and!; [by vm_compute | by vm_compute |].
  destruct (listTemplates_spec code_unit_compare None w) as (_ & _ & Hsorted).
  apply Hsorted.
  - intros a b. rewrite !code_unit_compare_le. apply (total String.le).
  - intros a b c. rewrite !code_unit_compare_le. apply transitivity.
Defined.

(** ** Saving from the builder *)

Lemma str_or_empty (a : string) : str_or a "" = a.
Proof. unfold str_or. by destruct (String.eqb_spec a "") as [->|]. Qed.

Section BuilderFacts.
Variable nowISO_at : nat -> string.
Variable uid_at : nat -> string.

(** X21. The Save button of the builder stores nothing unless both the
    body and the name are non-blank: a blank body gives the content
    alert, otherwise a blank name gives the name alert, and in both
    cases the storage is untouched. Otherwise it appends a template whose
    name, subject and content are the trimmed fields and whose folder is
    the selected one, or null when none is selected. *)
Theorem saveTemplate_validates (name subject body folder : string) (w : World) :
  let out := result (saveTemplate nowISO_at uid_at name subject body folder) w in
  let w' := exec (saveTemplate nowISO_at uid_at name subject body folder) w in
  (trim body = "" -> out = AlertContent /\ w' = w) /\
  (trim body <> "" -> trim name = "" -> out = AlertName /\ w' = w) /\
  (trim body <> "" -> trim name <> "" ->
     exists t, out = Saved t /\
       Template.name t = trim name /\ Template.subject t = trim subject /\
       Template.content t = trim body /\
       Template.folderId t = (if decide (folder = "") then None else Some folder) /\
       templates (view w') = templates (view w) ++ [t]).
Proof.
  intros out w'. subst out w'. unfold exec, result, saveTemplate.
  rewrite !str_or_empty. split_and!.
  - intros ->. done.
  - intros Hb ->. by rewrite str_eqb_false.
  - intros Hb Hn. rewrite !str_eqb_false by done. unfold bind.
    rewrite createTemplate_run. cbv zeta. unfold ret. cbn [fst snd].
    eexists. split; [done|].
    cbn [Template.name Template.subject Template.content Template.folderId].
    rewrite view_saved. cbn [templates].
    assert (Hjs : forall s d, to_string (js_or (JStr (trim s)) (JStr d))
                              = if String.eqb (trim s) "" then d else trim s).
    { intros s d. unfold js_or. simpl. by destruct (String.eqb (trim s) ""). }
    rewrite !Hjs, !str_eqb_false by done. rewrite !trim_idempotent.
    unfold str_or. rewrite str_eqb_false by done.
    split_and!; try done.
    + destruct (String.eqb_spec (trim subject) "") as [E|E]; [by rewrite E|].
      apply trim_idempotent.
    + rewrite str_eqb_false by done. apply trim_idempotent.
    + by destruct (String.eqb_spec folder ""), (decide (folder = "")).
Qed.
End BuilderFacts.

Lemma saveTemplate_validates_witness :
  trim "  Hi {{first_name}} " <> "" /\ trim " Offer " <> "" /\
  exists t,
    result (saveTemplate sample_clock sample_ids " Offer " "" "  Hi {{first_name}} " "f1")
           fresh_world = Saved t /\
    Template.name t = "Offer" /\ Template.content t = "Hi {{first_name}}" /\
    Template.folderId t = Some "f1".
Proof.
  assert (Hb : trim "  Hi {{first_name}} " <> "") by (by vm_compute).
  assert (Hn : trim " Offer " <> "") by (by vm_compute).
  split_and!; [done | done |].
  destruct (saveTemplate_validates sample_clock sample_ids " Offer " ""
              "  Hi {{first_name}} " "f1" fresh_world) as (_ & _ & Hsaved).
  destruct (Hsaved Hb Hn) as (t & Hout & Hname & _ & Hcontent & Hfolder & _).
  exists t. split_and!; [done | by rewrite Hname | by rewrite Hcontent | by rewrite Hfolder].
Defined.

(** ** Counting templates by folder *)

Lemma count_step_get m t id :
  folder_count (count_step m t) id
  = (folder_count m id
     + if bool_decide (Template.folderId t = Some id /\ id <> "") then 1 else 0)%nat.
Proof.
  unfold count_step, folder_count.
  destruct (Template.folderId t) as [id'|].
  - destruct (String.eqb_spec id' "") as [->|Hne].
    + case_bool_decide as E; [|lia]. destruct E as [[= <-] ?]. done.
    + destruct (decide (id' = id)) as [->|Hd].
      * rewrite lookup_insert_eq. case_bool_decide as E; [done|]. by destruct E.
      * rewrite lookup_insert_ne by done. case_bool_decide as E; [|lia].
        destruct E as [[= ->] ?]. done.
  - case_bool_decide as E; [|lia]. by destruct E.
Qed.

Lemma count_fold m ts id :
  id <> "" ->
  folder_count (foldl count_step m ts) id
  = (folder_count m id
     + length (filter (fun t => Template.folderId t = Some id) ts))%nat.
Proof.
  intros Hid. revert m. induction ts as [|t ts IH]; intros m; simpl; [lia|].
  rewrite IH, count_step_get, filter_cons.
  case_bool_decide as E; case_decide; simpl; try lia; naive_solver.
Qed.

Lemma count_step_entries m t :
  (forall id n, m !! id = Some n -> (1 <= n)%nat /\ id <> "") ->
  forall id n, count_step m t !! id = Some n -> (1 <= n)%nat /\ id <> "".
Proof.
  intros Hm id n. unfold count_step.
  destruct (Template.folderId t) as [id'|]; [|apply Hm].
  destruct (String.eqb_spec id' "") as [->|Hne]; [apply Hm|].
  destruct (decide (id' = id)) as [->|Hd].
  - rewrite lookup_insert_eq. intros [= <-]. split; [lia | done].
  - rewrite lookup_insert_ne by done. apply Hm.
Qed.

Lemma count_entries ts m :
  (forall id n, m !! id = Some n -> (1 <= n)%nat /\ id <> "") ->
  forall id n, foldl count_step m ts !! id = Some n -> (1 <= n)%nat /\ id <> "".
Proof.
  revert m. induction ts as [|t ts IH]; intros m Hm; simpl; [done|].
  by apply IH, count_step_entries.
Qed.

(** X22. The count shown for a folder in the library is the number of
    templates whose [folderId] is the id of that folder. Templates with a
    null or empty [folderId] are counted under no folder, and the map has
    an entry only for an id that at least one template refers to. *)
Theorem countTemplatesByFolder_spec (ts : list Template.t) (id : string) :
  (id <> "" ->
     folder_count (countTemplatesByFolder ts) id
     = length (filter (fun t => Template.folderId t = Some id) ts)) /\
  countTemplatesByFolder ts !! "" = None /\
  (forall n, countTemplatesByFolder ts !! id = Some n ->
     (1 <= n)%nat /\ exists t, t ∈ ts /\ Template.folderId t = Some id).
Proof.
  unfold countTemplatesByFolder.
  assert (Hentries : forall id n, foldl count_step ∅ ts !! id = Some n ->
                                  (1 <= n)%nat /\ id <> "").
  { apply count_entries. intros ? ?. by rewrite lookup_empty. }
  split_and!.
  - intros Hid. by rewrite count_fold.
  - destruct (foldl count_step ∅ ts !! "") as [n|] eqn:E; [|done].
    by destruct (Hentries _ _ E).
  - intros n Hn. destruct (Hentries _ _ Hn) as [Hpos Hid]. split; [done|].
    pose proof (count_fold ∅ ts id Hid) as Hc. unfold folder_count in Hc.
    rewrite Hn, lookup_empty in Hc. simpl in Hc.
    destruct (filter _ ts) as [|t l] eqn:Hf; [simpl in Hc; lia|].
    assert (Ht : t ∈ filter (fun t => Template.folderId t = Some id) ts)
      by (rewrite Hf; by left).
    apply list_elem_of_filter in Ht as [? ?]. eauto.
Qed.

Lemma countTemplatesByFolder_spec_witness :
  "f1" <> "" /\
  folder_count (countTemplatesByFolder [offer; reminder; offer]) "f1" = 2%nat /\
  folder_count (countTemplatesByFolder [offer; reminder; offer]) "f2" = 0%nat.
Proof.
  split_and!; [done | | by vm_compute].
  destruct (countTemplatesByFolder_spec [offer; reminder; offer] "f1") as [Hcount _].
  by rewrite Hcount.
Defined.

(** ** The further properties at concrete inputs *)

Ltac by_computation := apply (bool_decide_unpack _); vm_compute; exact I.

Lemma sample_refs_ok : refs_ok (view sample_world).
Proof.
  intros t id Ht Hf. change (templates (view sample_world)) with [offer; reminder] in Ht.
  change (Folder.id <$> folders (view sample_world)) with ["f1"; "f2"].
  apply elem_of_cons in Ht as [->|Ht].
  - injection Hf as <-. by left.
  - apply list_elem_of_singleton in Ht as ->. discriminate Hf.
Qed.

Lemma sample_names_ok : names_ok (view sample_world).
Proof. split; by repeat constructor. Qed.

Lemma unary_ids_length n : String.length (unary_ids n) = (3 + n)%nat.
Proof.
  induction n as [|n IH]; [done|]. cbn [unary_ids].
  rewrite str_length_app, IH. simpl. lia.
Qed.

Lemma unary_ids_inj n m : unary_ids n = unary_ids m -> n = m.
Proof.
  intros E%(f_equal String.length). rewrite !unary_ids_length in E. lia.
Qed.

Lemma fresh_ids_ok : ids_ok unary_ids fresh_world.
Proof.
  split_and!; [constructor | constructor |].
  intros n _. split; apply not_elem_of_nil.
Qed.

Lemma createFolder_spec_witness :
  truthy (JStr "  Leads 2 ") = true /\ trim (to_string (JStr "  Leads 2 ")) <> "" /\
  Folder.name (result (createFolder sample_clock sample_ids (JStr "  Leads 2 ")) sample_world)
  = "Leads 2".
Proof.
  assert (Ht : truthy (JStr "  Leads 2 ") = true) by done.
  assert (Hn : trim (to_string (JStr "  Leads 2 ")) <> "") by (by vm_compute).
  split_and!; [done | done |].
  destruct (createFolder_spec sample_clock sample_ids (JStr "  Leads 2 ") sample_world)
    as (_ & _ & Hname & _).
  rewrite (Hname Ht Hn). by vm_compute.
Defined.

Lemma renameFolder_spec_witness :
  "f1" ∈ Folder.id <$> folders (view sample_world) /\
  trim (to_string (js_or (JStr "   ") (JStr ""))) = "" /\
  result (renameFolder "f1" (JStr "   ")) sample_world = true /\
  view (exec (renameFolder "f1" (JStr "   ")) sample_world) = view sample_world.
Proof.
  assert (Hin : "f1" ∈ Folder.id <$> folders (view sample_world)) by (by left).
  assert (Hblank : trim (to_string (js_or (JStr "   ") (JStr ""))) = "") by (by vm_compute).
  destruct (renameFolder_spec "f1" (JStr "   ") sample_world) as [_ Hfound].
  destruct (Hfound Hin) as (Hres & _ & _ & Hsame & _).
  split_and!; [done | done | done | by apply Hsame].
Defined.

Lemma moveTemplatesToFolder_spec_witness :
  templates (view sample_world) !! 0%nat = Some offer /\
  templates (view (exec (moveTemplatesToFolder ["t1"] (Some "f2")) sample_world)) !! 0%nat
  = Some (Template.set_folderId (Some "f2") offer).
Proof.
  assert (Hl : templates (view sample_world) !! 0%nat = Some offer) by done.
  split; [done|].
  destruct (moveTemplatesToFolder_spec ["t1"] (Some "f2") sample_world)
    as (_ & _ & _ & Hmoved & _).
  by rewrite (Hmoved 0%nat offer Hl).
Defined.

Lemma getTemplate_spec_witness :
  ("t9" ∉ Template.id <$> templates (view sample_world)) /\
  result (getTemplate "t9") sample_world = None.
Proof.
  assert (Hn : "t9" ∉ Template.id <$> templates (view sample_world)) by by_computation.
  split; [done|].
  destruct (getTemplate_spec "t9" sample_world) as (_ & Hnone & _).
  by apply Hnone.
Defined.

Lemma createTemplate_spec_witness :
  let w := sample_world in
  let t := result (createTemplate sample_clock unary_ids (JStr " Intro ") JUndefined
                     (JStr " Hello ") None) w in
  let w' := exec (createTemplate sample_clock unary_ids (JStr " Intro ") JUndefined
                    (JStr " Hello ") None) w in
  (unary_ids (uid_draws w) ∉ Template.id <$> templates (view w)) /\
  truthy (JStr " Intro ") = true /\ trim (to_string (JStr " Intro ")) <> "" /\
  Template.name t = "Intro" /\ Template.subject t = "" /\ Template.content t = "Hello" /\
  result (getTemplate (Template.id t)) w' = Some t.
Proof.
  intros w t w'.
  assert (Hfresh : unary_ids (uid_draws w) ∉ Template.id <$> templates (view w))
    by by_computation.
  assert (Ht : truthy (JStr " Intro ") = true) by done.
  assert (Hn : trim (to_string (JStr " Intro ")) <> "") by (by vm_compute).
  destruct (createTemplate_spec sample_clock unary_ids (JStr " Intro ") JUndefined
              (JStr " Hello ") None w)
    as (_ & _ & _ & _ & _ & _ & _ & Hname & _ & Hsubject & Hcontent & _ & _ & _ & Hget).
  split_and!; [done | done | done | | | | by apply Hget].
  - fold t in Hname. rewrite (Hname Ht Hn). by vm_compute.
  - fold t in Hsubject. by rewrite Hsubject.
  - fold t in Hcontent. rewrite Hcontent. by vm_compute.
Defined.

Lemma deleteTemplate_spec_witness :
  "t1" ∈ Template.id <$> templates (view sample_world) /\
  result (deleteTemplate "t1") sample_world = true /\
  templates (view (exec (deleteTemplate "t1") sample_world)) = [reminder].
Proof.
  assert (Hin : "t1" ∈ Template.id <$> templates (view sample_world)) by (by left).
  destruct (deleteTemplate_spec "t1" sample_world) as [_ Hfound].
  destruct (Hfound Hin) as (Hres & _ & _ & _ & _).
  split_and!; [done | done | by vm_compute].
Defined.

Lemma create_then_delete_template_witness :
  let w := sample_world in
  let t := result (createTemplate sample_clock unary_ids (JStr "Intro") JUndefined
                     (JStr "Hello") None) w in
  let w1 := exec (createTemplate sample_clock unary_ids (JStr "Intro") JUndefined
                    (JStr "Hello") None) w in
  (unary_ids (uid_draws w) ∉ Template.id <$> templates (view w)) /\
  templates (view (exec (deleteTemplate (Template.id t)) w1)) = templates (view w).
Proof.
  intros w t w1.
  assert (Hfresh : unary_ids (uid_draws w) ∉ Template.id <$> templates (view w))
    by by_computation.
  split; [done|].
  by destruct (create_then_delete_template sample_clock unary_ids (JStr "Intro")
                 JUndefined (JStr "Hello") None w Hfresh) as (_ & Hts & _).
Defined.

Lemma deleteFolder_keeps_references_witness :
  refs_ok (view sample_world) /\
  refs_ok (view (exec (deleteFolder "f1" "keep") sample_world)).
Proof.
  split; [apply sample_refs_ok|].
  apply deleteFolder_keeps_references, sample_refs_ok.
Defined.

Lemma create_then_delete_folder_witness :
  let w := sample_world in
  let f := result (createFolder sample_clock unary_ids (JStr "Temp")) w in
  let w1 := exec (createFolder sample_clock unary_ids (JStr "Temp")) w in
  (unary_ids (uid_draws w) ∉ Folder.id <$> folders (view w)) /\
  refs_ok (view w) /\
  folders (view (exec (deleteFolder (Folder.id f) "deleteTemplates") w1)) = folders (view w) /\
  templates (view (exec (deleteFolder (Folder.id f) "deleteTemplates") w1))
  = templates (view w).
Proof.
  intros w f w1.
  assert (Hfresh : unary_ids (uid_draws w) ∉ Folder.id <$> folders (view w))
    by by_computation.
  destruct (create_then_delete_folder sample_clock unary_ids (JStr "Temp")
              "deleteTemplates" w Hfresh sample_refs_ok) as (_ & Hfs & Hts).
  split_and!; [done | apply sample_refs_ok | done | done].
Defined.

Lemma names_stay_nonempty_witness :
  let os := [RenameFolder "f1" (JStr " ");
             UpdateTemplate "t1" (Patch.mk (JStr "") JUndefined JUndefined None);
             CreateFolder JNull;
             CreateTemplate JUndefined JUndefined (JStr "Hello") None] in
  names_ok (view sample_world) /\
  names_ok (view (exec (run_ops sample_clock unary_ids os) sample_world)).
Proof.
  intros os. split; [apply sample_names_ok|].
  apply names_stay_nonempty, sample_names_ok.
Defined.

Lemma ids_stay_unique_witness :
  let os := [EnsureSampleTemplate; CreateFolder (JStr "Leads");
             CreateTemplate (JStr "Intro") JUndefined (JStr "Hello") None;
             CreateFolder (JStr "Clients")] in
  ids_ok unary_ids fresh_world /\
  NoDup (Folder.id <$> folders (view (exec (run_ops sample_clock unary_ids os) fresh_world))) /\
  NoDup (Template.id <$>
           templates (view (exec (run_ops sample_clock unary_ids os) fresh_world))).
Proof.
  intros os. split; [apply fresh_ids_ok|].
  destruct (ids_stay_unique sample_clock unary_ids os fresh_world unary_ids_inj fresh_ids_ok)
    as (HF & HT & _).
  by split.
Defined.

(* ===================================================================== *)
(** * Part IV: placeholders in whole templates, and dates in a time zone  *)
(* ===================================================================== *)

Lemma token_text_app ws1 key filter ws2 post :
  token_text ws1 key filter ws2 +:+ post
  = "{{" +:+ ws1 +:+ key +:+ filter_text filter +:+ ws2 +:+ "}}" +:+ post.
Proof. unfold token_text. by rewrite !str_app_assoc. Qed.

Lemma tokenize_token_text ws1 key filter ws2 post :
  all_chars is_space ws1 = true -> all_chars is_space ws2 = true ->
  valid_key key -> (forall f, filter = Some f -> valid_filter f) ->
  tokenize (token_text ws1 key filter ws2 +:+ post) = Token key filter :: tokenize post.
Proof.
  intros H1 H2 [Hne Hw] Hf. apply tokenize_token, re_exec_complete.
  exists ws1, ws2. split_and!; try done. apply token_text_app.
Qed.

Lemma token_text_nonempty ws1 key filter ws2 : token_text ws1 key filter ws2 <> "".
Proof. done. Qed.

Section WholeTemplates.
Context `{DateEnv}.

(** C2. Take a key that reads as a non-empty (truthy) value [raw], and let
    [value] be: [String(raw)] if the key does not begin with "date_",
    whatever the filter; for a key that begins with "date_", the date
    formatted with a 2-digit year, short month and numeric day under the
    filter "shortdate", with a numeric year, long month and numeric day
    under "longdate" (the raw value when it denotes no date), and
    [String(raw)] without a filter or under any other filter name. Then
    every token with that key and filter that the scan of a template
    matches is replaced by [value] in the output of [render], the rest of
    the output being what the other pieces of the template give; and a
    placeholder written after text without an opening brace is such a
    match: the output is that text, [value], and the rendering of what
    follows the placeholder. *)
Theorem render_substitutes_value (o : gmap string value) (key : string)
    (filter : option string) :
  let raw := get_property o key in
  truthy raw = true ->
  let value :=
    if startsWith key "date_" then
      if decide (filter = Some "shortdate") then
        match date_of_input raw with
        | Some d => Intl_format {| year := TwoDigit; month := Short; day := Numeric |} d
        | None => to_string raw
        end
      else if decide (filter = Some "longdate") then
        match date_of_input raw with
        | Some d => Intl_format {| year := Numeric; month := Long; day := Numeric |} d
        | None => to_string raw
        end
      else to_string raw
    else to_string raw in
  (forall (t : string) (i : nat),
     tokenize t !! i = Some (Token key filter) ->
     render (JStr t) (Some o)
     = concat_strings (piece_out (render_token (Some o)) <$> take i (tokenize t))
       +:+ value
       +:+ concat_strings (piece_out (render_token (Some o)) <$> drop (S i) (tokenize t))) /\
  (forall pre ws1 ws2 post : string,
     brace_free pre ->
     all_chars is_space ws1 = true -> all_chars is_space ws2 = true ->
     valid_key key -> (forall f, filter = Some f -> valid_filter f) ->
     render (JStr (pre +:+ token_text ws1 key filter ws2 +:+ post)) (Some o)
     = pre +:+ value +:+ render (JStr post) (Some o)).
Proof.
  intros raw Ht value.
  assert (Hval : render_token (Some o) key filter = value).
  { destruct (render_token_value o key filter Ht) as [Hplain Hdate]. subst value.
    destruct (startsWith key "date_"); [|by apply Hplain].
    destruct (Hdate eq_refl) as (Hshort & Hlong & Hother).
    repeat case_decide; auto. }
  split.
  - intros t i Hi. rewrite render_pieces. unfold replace_tokens.
    rewrite <- (take_drop_middle _ _ _ Hi) at 1.
    rewrite fmap_app, concat_strings_app, fmap_cons.
    change (concat_strings (?x :: ?l)) with (x +:+ concat_strings l).
    simpl piece_out. by rewrite Hval.
  - intros pre ws1 ws2 post Hpre H1 H2 Hk Hf.
    rewrite !render_pieces. unfold replace_tokens.
    rewrite tokenize_after_text, tokenize_token_text by done.
    rewrite fmap_app, concat_strings_app, fmap_cons, concat_texts.
    change (concat_strings (?x :: ?l)) with (x +:+ concat_strings l).
    simpl piece_out. by rewrite Hval.
Qed.

(** X5. Take a template that is one placeholder whose key does not begin
    with "date_". What [render] gives for it is blank (trims to the empty
    string) exactly when [missingFields] reports the key or the value of
    the key is falsy; and [missingFields] reports the key exactly when the
    value read is undefined, null or blank. A value such as 0 or false is
    therefore rendered as nothing without being reported missing. *)
Theorem blank_render_missing (data : option (gmap string value))
    (ws1 key : string) (filter : option string) (ws2 : string) :
  all_chars is_space ws1 = true -> all_chars is_space ws2 = true ->
  valid_key key -> (forall f, filter = Some f -> valid_filter f) ->
  startsWith key "date_" = false ->
  let t := token_text ws1 key filter ws2 in
  (trim (render (JStr t) data) = "" <->
   key ∈ missingFields (JStr t) data \/ truthy (opt_get data key) = false) /\
  missingFields (JStr t) data = (if is_missing (opt_get data key) then [key] else []).
Proof.
  intros H1 H2 Hk Hf Hd t.
  assert (Htok : tokenize t = [Token key filter]).
  { subst t. rewrite <- (str_app_nil_r (token_text ws1 key filter ws2)).
    by rewrite tokenize_token_text. }
  assert (Hmiss : missingFields (JStr t) data
                  = if is_missing (opt_get data key) then [key] else []).
  { destruct (missingFields_spec t data (token_text_nonempty _ _ _ _)) as [-> _].
    unfold token_keys. rewrite Htok. simpl. rewrite filter_cons.
    destruct (is_missing (opt_get data key)); by case_decide. }
  split; [|done].
  rewrite render_pieces. unfold replace_tokens. rewrite Htok. simpl.
  rewrite str_app_nil_r, (blank_render_iff data key filter Hd), Hmiss.
  destruct (is_missing (opt_get data key)); set_solver.
Qed.
End WholeTemplates.

Lemma render_substitutes_value_witness :
  let o : gmap string value := {[ "date_1" := JStr "2024-03-05"; "first_name" := JStr "Sam" ]} in
  truthy (get_property o "date_1") = true /\
  brace_free "On " /\
  @render EnUS.env (JStr "On {{ date_1|shortdate }}, {{first_name}}!") (Some o)
  = "On Mar 5, 24, Sam!".
Proof.
  intros o.
  assert (Ht : truthy (get_property o "date_1") = true) by (by vm_compute).
  assert (Hb : brace_free "On ") by (by repeat constructor).
  split_and!; [done | done |].
  destruct (@render_substitutes_value EnUS.env o "date_1" (Some "shortdate") Ht)
    as [_ Hplace].
  change (JStr "On {{ date_1|shortdate }}, {{first_name}}!")
    with (JStr ("On " +:+ token_text " " "date_1" (Some "shortdate") " "
                +:+ ", {{first_name}}!")).
  rewrite (Hplace "On " " " " " ", {{first_name}}!" Hb eq_refl eq_refl).
  - by vm_compute.
  - done.
  - by intros f [= <-].
Defined.

Lemma blank_render_missing_witness :
  let data : option (gmap string value) := Some {[ "competitor" := JNum 0 ]} in
  startsWith "competitor" "date_" = false /\
  trim (@render EnUS.env (JStr "{{competitor}}") data) = "" /\
  missingFields (JStr "{{competitor}}") data = [].
Proof.
  intros data.
  destruct (@blank_render_missing EnUS.env data "" "competitor" None ""
              eq_refl eq_refl) as [Hblank Hmiss]; [done | done | done |].
  split_and!; [done | |].
  - apply Hblank. right. by vm_compute.
  - etransitivity; [exact Hmiss | by vm_compute].
Defined.

(** ** Dates in a time zone *)

Lemma match_classes_app cs cs' s t :
  match_classes cs s = true ->
  match_classes (cs ++ cs') (s +:+ t) = match_classes cs' t.
Proof.
  revert s. induction cs as [|p cs IH]; intros [|c s]; simpl; try done.
  intros [Hp Hs]%andb_prop. rewrite Hp. by apply IH.
Qed.

Lemma ymd_ten_chars s :
  is_ymd s ->
  exists y1 y2 y3 y4 m1 m2 d1 d2,
    s = String y1 (String y2 (String y3 (String y4 (String "-"
          (String m1 (String m2 (String "-" (String d1 (String d2 ""))))))))).
Proof.
  intros (y & m & d & -> & Hy & Hm & Hd & _).
  apply length_4 in Hy as (y1 & y2 & y3 & y4 & ->).
  apply length_2 in Hm as (m1 & m2 & ->). apply length_2 in Hd as (d1 & d2 & ->).
  by exists y1, y2, y3, y4, m1, m2, d1, d2.
Qed.

(** In a zone of any offset, the date spelled by YYYY-MM-DD followed by
    "T12:00:00" is noon of that very day. *)
Lemma Zoned_local_noon off s :
  is_ymd s -> valid_date (ymd_fields s) ->
  Zoned.parse off (s +:+ "T12:00:00") = Some (Zoned.mk (ymd_fields s) 43200).
Proof.
  intros Hs Hv. pose proof (proj2 (ymd_pattern_spec s) Hs) as Hm.
  assert (Hfields : ymd_fields (s +:+ "T12:00:00") = ymd_fields s).
  { destruct (ymd_ten_chars s Hs) as (y1 & y2 & y3 & y4 & m1 & m2 & d1 & d2 & ->).
    reflexivity. }
  assert (Hsecs : Zoned.day_secs (s +:+ "T12:00:00") = Some 43200).
  { destruct (ymd_ten_chars s Hs) as (y1 & y2 & y3 & y4 & m1 & m2 & d1 & d2 & ->).
    reflexivity. }
  unfold Zoned.parse. rewrite Hfields, Hv, Hsecs. cbn [negb].
  rewrite <- (app_nil_r ymd_pattern) at 1.
  rewrite !match_classes_app by done. reflexivity.
Qed.

(** There, a date alone is midnight UTC: west of Greenwich it falls on the
    day before. *)
Lemma Zoned_date_alone off s :
  is_ymd s -> valid_date (ymd_fields s) ->
  Zoned.parse off s = Some (Zoned.to_local off (ymd_fields s) 0).
Proof.
  intros Hs Hv. unfold Zoned.parse.
  by rewrite Hv, (proj2 (ymd_pattern_spec s) Hs).
Qed.

(** In a browser at any fixed offset from UTC, a date-picker value that
    names an existing day is formatted as that day. *)
Lemma formatDate_every_zone off s style :
  is_ymd s -> valid_date (ymd_fields s) ->
  @formatDate (Zoned.env off) (JStr s) style
  = JStr (show_day (if String.eqb style "short" then short_date else long_date)
                   (ymd_fields s)).
Proof.
  intros Hs Hv.
  assert (Hne : s <> "") by (destruct (ymd_ten_chars s Hs) as (? & ? & ? & ? & ? & ? & ? & ? & ->); done).
  destruct (@formatDate_parsing (Zoned.env off) s style Hne) as [Hymd _].
  destruct (Hymd Hs) as [_ Hfmt].
  rewrite (Hfmt (Zoned.mk (ymd_fields s) 43200)) by by apply Zoned_local_noon.
  by destruct (String.eqb style "short").
Qed.

Section DatesInZone.
Context `{DateEnv}.

(** C8. Let the environment be one where the formatter prints the calendar
    day that a date falls on in the time zone of the browser
    ([local_day], shown by [show]), and where a date-time without offset
    is read as local time, so that a valid day YYYY-MM-DD followed by
    "T12:00:00" denotes a date on that very day. Then for a non-empty
    string [s]: when [s] is exactly YYYY-MM-DD it is parsed with
    "T12:00:00" appended, and for a day that exists the output is the text
    of that same day, in every such zone; any other string is parsed as it
    is and, if it denotes a date, that date is formatted; and when parsing
    gives no valid date the input comes back unchanged. *)
Theorem formatDate_local_noon (local_day : date -> Z * Z * Z)
    (show : dtf_options -> Z * Z * Z -> string) (s style : string) :
  (forall opts dt, Intl_format opts dt = show opts (local_day dt)) ->
  (forall s', is_ymd s' -> valid_date (ymd_fields s') ->
     exists dt, Date_parse (s' +:+ "T12:00:00") = Some dt /\
                local_day dt = ymd_fields s') ->
  s <> "" ->
  let opts := if String.eqb style "short" then short_date else long_date in
  (is_ymd s ->
     date_of_input (JStr s) = Date_parse (s +:+ "T12:00:00") /\
     (valid_date (ymd_fields s) ->
        formatDate (JStr s) style = JStr (show opts (ymd_fields s)))) /\
  (~ is_ymd s ->
     date_of_input (JStr s) = Date_parse s /\
     forall dt, Date_parse s = Some dt ->
                formatDate (JStr s) style = JStr (Intl_format opts dt)) /\
  (date_of_input (JStr s) = None -> formatDate (JStr s) style = JStr s).
Proof.
  intros Hformat Hlocal Hs opts.
  destruct (formatDate_parsing s style Hs) as (Hymd & Hother & Hfail).
  split_and!.
  - intros Hy. destruct (Hymd Hy) as [Hin Hfmt]. split; [done|].
    intros Hv. destruct (Hlocal s Hy Hv) as (dt & Hdt & Hday).
    rewrite (Hfmt dt Hdt). subst opts.
    destruct (String.eqb style "short"); by rewrite Hformat, Hday.
  - intros Hn. destruct (Hother Hn) as [Hin Hfmt]. split; [done|].
    intros dt Hdt. rewrite (Hfmt dt Hdt). subst opts.
    by destruct (String.eqb style "short").
  - done.
Qed.
End DatesInZone.

(** C8 in a browser five hours behind UTC: the date-picker value
    2024-01-15 is formatted as January 15, although the same string read
    by [Date] as it is falls on January 14 there. *)
Lemma formatDate_local_noon_witness :
  let env := Zoned.env (-300) in
  "2024-01-15" <> "" /\ is_ymd "2024-01-15" /\ valid_date (ymd_fields "2024-01-15") /\
  @formatDate env (JStr "2024-01-15") "long" = JStr "January 15, 2024" /\
  @formatDate env (JStr "2024-01-15") "short" = JStr "Jan 15, 24" /\
  @Intl_format env long_date <$> @Date_parse env "2024-01-15" = Some "January 14, 2024".
Proof.
  intros env.
  assert (Hne : "2024-01-15" <> "") by done.
  assert (Hymd : is_ymd "2024-01-15").
  { exists "2024", "01", "15". by vm_compute. }
  assert (Hv : valid_date (ymd_fields "2024-01-15")) by (by vm_compute).
  assert (Hformat : forall opts dt,
            @Intl_format env opts dt = show_day opts (Zoned.local_day dt)) by done.
  assert (Hlocal : forall s', is_ymd s' -> valid_date (ymd_fields s') ->
            exists dt, @Date_parse env (s' +:+ "T12:00:00") = Some dt /\
                       Zoned.local_day dt = ymd_fields s').
  { intros s' Hs' Hv'. eexists. split; [by apply Zoned_local_noon | done]. }
  split_and!; [done | done | done | | | by vm_compute].
  - destruct (@formatDate_local_noon env Zoned.local_day show_day "2024-01-15" "long"
                Hformat Hlocal Hne) as [Hnoon _].
    destruct (Hnoon Hymd) as [_ ->]; [done | by vm_compute].
  - destruct (@formatDate_local_noon env Zoned.local_day show_day "2024-01-15" "short"
                Hformat Hlocal Hne) as [Hnoon _].
    destruct (Hnoon Hymd) as [_ ->]; [done | by vm_compute].
Defined.
